(** * MilitaryTelemedicine: the consultation workflow of [app.py]

    A shallow embedding of the Flask application in [src/app.py]: the two
    tables ([User], [Consultation]), the WTForms forms with their validator
    chains, the Flask-Login session, and the eight view functions, written
    as computations in a small state-and-exception monad over the world
    (database, session cookie, flashed messages). *)

From Stdlib Require Import String Ascii.
From stdpp Require Import base option list gmap strings fin_maps.

Open Scope string_scope.
Open Scope list_scope.
Open Scope nat_scope.

(** ** Python strings

    A [string] is read as a sequence of code points below 256.  [isspace]
    is Python's [str.isspace] on those code points, and [strip] is
    [str.strip()] with no argument. *)

Definition isspace (c : ascii) : bool :=
  let n := nat_of_ascii c in
  ((9 <=? n) && (n <=? 13)) || ((28 <=? n) && (n <=? 32))
  || (n =? 133) || (n =? 160).

Fixpoint lstrip (s : string) : string :=
  match s with
  | EmptyString => EmptyString
  | String c s' => if isspace c then lstrip s' else s
  end.

Fixpoint rstrip (s : string) : string :=
  match s with
  | EmptyString => EmptyString
  | String c s' =>
      match rstrip s' with
      | EmptyString => if isspace c then EmptyString else String c EmptyString
      | r => String c r
      end
  end.

Definition strip (s : string) : string := rstrip (lstrip s).

(** Truth value of a Python [str]: the empty string is falsy. *)
Definition truthy (s : string) : bool :=
  match s with EmptyString => false | String _ _ => true end.

(** The reading of "blank" used by the statements below: the field is
    missing, or holds nothing but white space. *)
Fixpoint all_space (s : string) : bool :=
  match s with
  | EmptyString => true
  | String c s' => isspace c && all_space s'
  end.

Definition blank (data : option string) : bool :=
  match data with None => true | Some s => all_space s end.

(** ** Data model *)

Module User.
(** [class User(UserMixin, db.Model)].  The primary key [id] is the key of
    the table the row is stored in; every other column is nullable. *)
Record t := mk {
  username : option string;
  email : option string;
  password_hash : option string;
  role : option string
}.
End User.

Module Consultation.
(** [class Consultation(db.Model)], keyed like [User]; every column is
    nullable. *)
Record t := mk {
  body : option string;
  timestamp : option nat;
  user_id : option nat;
  responder_id : option nat;
  response : option string
}.

(** Attribute assignment [c.responder_id = v]. *)
Definition set_responder_id (v : option nat) (c : t) : t :=
  mk (body c) (timestamp c) (user_id c) v (response c).

(** Attribute assignment [c.response = v]. *)
Definition set_response (v : option string) (c : t) : t :=
  mk (body c) (timestamp c) (user_id c) (responder_id c) v.
End Consultation.

(** The relational store: one table per model, keyed by primary key. *)
Record DB := mkDB {
  user : gmap nat User.t;
  consultation : gmap nat Consultation.t
}.

(** Rows in storage order, each with its primary key. *)
Definition rows {A} (table : gmap nat A) : list (nat * A) := map_to_list table.

(** [Model.query.filter_by(...).all()] and [.first()]. *)
Definition filter_by_all {A} (p : A → bool) (table : gmap nat A) : list (nat * A) :=
  List.filter (λ r, p r.2) (rows table).

Definition filter_by_first {A} (p : A → bool) (table : gmap nat A) : option (nat * A) :=
  head (filter_by_all p table).

(** Primary key given to an inserted row: one more than the largest key. *)
Definition next_id {A} (table : gmap nat A) : nat :=
  S (max_list ((rows table).*1)).

(** ** Requests, sessions and responses *)

Inductive Method := GET | POST.

Definition MultiDict := list (string * string).

(** [MultiDict.get(key)]: the first value stored under [key], or [None]. *)
Fixpoint get (key : string) (d : MultiDict) : option string :=
  match d with
  | [] => None
  | (k, v) :: d' => if String.eqb k key then Some v else get key d'
  end.

(** What a view reads from the request context: method, path, query
    string ([request.args]), posted form ([request.form]), the outcome of
    Flask-WTF's check of the form's CSRF token, and the reading of
    [datetime.utcnow] when a row is inserted. *)
Record Request := mkRequest {
  method : Method;
  path : string;
  args : MultiDict;
  form : MultiDict;
  csrf_valid : bool;
  utcnow : nat
}.

(** The Flask-Login part of the session cookie. *)
Record Session := mkSession {
  _user_id : option nat;
  _remember : bool
}.

Definition anonymous : Session := mkSession None false.

Record World := mkWorld {
  db : DB;
  session : Session;
  flashes : list string
}.

Inductive Exception :=
| NotFound
| NameError (name : string)
| AttributeError (name : string)
| TypeError
| IntegrityError.

Inductive Location :=
| url_for (endpoint : string) (values : MultiDict)
| url (target : string).

Definition FormErrors := list (string * list string).

Inductive Context :=
| page (title : string)
| with_form (title : string) (errors : FormErrors)
| with_user (title : string) (user : option (nat * User.t))
| with_consultations (title : string) (consultations : list (nat * Consultation.t))
| with_consultation (title : string) (consultation : nat * Consultation.t).

Inductive Response :=
| render_template (template : string) (context : Context)
| redirect (location : Location)
| error_response (e : Exception)
| method_not_allowed.

(** ** The view monad: state over [World], with Python exceptions *)

Inductive Outcome (A : Type) :=
| Return (a : A)
| Raise (e : Exception).
Arguments Return {A} a.
Arguments Raise {A} e.

Definition View (A : Type) : Type := World → Outcome A * World.

#[global] Instance View_ret : MRet View := λ A a w, (Return a, w).

#[global] Instance View_bind : MBind View := λ A B k m w,
  match m w with
  | (Return a, w') => k a w'
  | (Raise e, w') => (Raise e, w')
  end.

Definition raise {A} (e : Exception) : View A := λ w, (Raise e, w).

Definition gets {A} (f : World → A) : View A := λ w, (Return (f w), w).

Definition modify (f : World → World) : View unit := λ w, (Return tt, f w).

(** ** Library functions the module calls

    [generate_password_hash] and [check_password_hash] are Werkzeug's;
    [email_syntax_ok] is the syntax check behind WTForms' [Email()];
    [url_parse_netloc u] stands for [werkzeug.urls.url_parse(u).netloc],
    the function the name [url_parse] would denote had [app.py] imported
    it. *)
Class Libraries := {
  generate_password_hash : string → string;
  check_password_hash : string → string → bool;
  email_syntax_ok : string → bool;
  url_parse_netloc : string → string
}.

(** The names bound in the module namespace of [app.py] once it is loaded:
    everything it imports and everything it defines.  None of the names
    looked up below is a Python builtin. *)
Definition module_names : list string :=
  [ "Flask"; "render_template"; "flash"; "redirect"; "url_for"; "request";
    "Bootstrap"; "SQLAlchemy"; "FlaskForm";
    "StringField"; "PasswordField"; "BooleanField"; "SubmitField"; "TextAreaField";
    "DataRequired"; "ValidationError"; "Email"; "EqualTo";
    "LoginManager"; "UserMixin"; "current_user"; "login_user"; "logout_user";
    "login_required"; "generate_password_hash"; "check_password_hash";
    "datetime"; "Config";
    "app"; "bootstrap"; "db"; "login"; "User"; "load_user"; "Consultation";
    "LoginForm"; "RegistrationForm"; "ConsultationForm";
    "index"; "logout"; "register"; "profile"; "consultation_request";
    "consultations"; "chat" ].

(** Evaluating a global name: its value when the module binds it,
    [NameError] otherwise. *)
Definition load_global {A} (name : string) (value : A) : View A :=
  if bool_decide (name ∈ module_names) then mret value else raise (NameError name).

(** ** WTForms: validators and forms *)

Inductive Verdict :=
| Passed
| ValidationError (message : string)
| StopValidation (message : string).

(** A validator sees the database, the submitted form and the data of the
    field it is attached to. *)
Definition Validator : Type := DB → MultiDict → option string → Verdict.

Definition DataRequired : Validator := λ _ _ data,
  match data with
  | Some s =>
      if truthy s && truthy (strip s) then Passed
      else StopValidation "This field is required."
  | None => StopValidation "This field is required."
  end.

Definition Email `{Libraries} : Validator := λ _ _ data,
  match data with
  | Some s =>
      if email_syntax_ok s then Passed
      else ValidationError "Invalid email address."
  | None => ValidationError "Invalid email address."
  end.

Definition EqualTo (fieldname : string) : Validator := λ _ fields data,
  if bool_decide (data ≠ get fieldname fields)
  then ValidationError "Field must be equal to password."
  else Passed.

(** [RegistrationForm.validate_username]. *)
Definition validate_username : Validator := λ d _ data,
  let user := filter_by_first (λ u, bool_decide (User.username u = data)) (user d) in
  if bool_decide (user ≠ None)
  then ValidationError "Please use a different username."
  else Passed.

(** [RegistrationForm.validate_email]. *)
Definition validate_email : Validator := λ d _ data,
  let user := filter_by_first (λ u, bool_decide (User.email u = data)) (user d) in
  if bool_decide (user ≠ None)
  then ValidationError "Please use a different email address."
  else Passed.

(** The errors a field collects from its chain: [StopValidation] ends the
    chain, [ValidationError] lets it go on. *)
Fixpoint _run_validation_chain (d : DB) (fields : MultiDict) (data : option string)
    (validators : list Validator) : list string :=
  match validators with
  | [] => []
  | v :: rest =>
      match v d fields data with
      | Passed => _run_validation_chain d fields data rest
      | ValidationError m => m :: _run_validation_chain d fields data rest
      | StopValidation m => [m]
      end
  end.

(** A form class: its fields in declaration order, each with the
    validators of the field followed by its inline [validate_<name>]. *)
Definition Form : Type := list (string * list Validator).

Definition LoginForm : Form :=
  [ ("username", [DataRequired]);
    ("password", [DataRequired]);
    ("remember_me", []);
    ("submit", []) ].

Definition RegistrationForm `{Libraries} : Form :=
  [ ("username", [DataRequired; validate_username]);
    ("email", [DataRequired; Email; validate_email]);
    ("password", [DataRequired]);
    ("password2", [DataRequired; EqualTo "password"]);
    ("role", [DataRequired]);
    ("submit", []) ].

Definition ConsultationForm : Form :=
  [ ("body", [DataRequired]);
    ("submit", []) ].

(** [form.<name>.data] of a string field: the first submitted value. *)
Definition data (name : string) (req : Request) : option string :=
  get name (form req).

(** [BooleanField] data: false when the box is absent or sent as a false
    value. *)
Definition checked (name : string) (req : Request) : bool :=
  match get name (form req) with
  | None => false
  | Some v => negb (String.eqb v "false" || String.eqb v "")
  end.

(** [form.errors] after [form.validate()]: the CSRF token first, then every
    field that collected at least one message. *)
Definition errors (f : Form) (d : DB) (req : Request) : FormErrors :=
  (if csrf_valid req then [] else [("csrf_token", ["The CSRF token is invalid."])])
  ++ omap (λ fld : string * list Validator,
             match _run_validation_chain d (form req) (data fld.1 req) fld.2 with
             | [] => None
             | msgs => Some (fld.1, msgs)
             end) f.

Definition is_nil {A} (l : list A) : bool :=
  match l with [] => true | _ => false end.

(** [form.validate_on_submit()]: the request is a submission and every
    field validates. *)
Definition validate_on_submit (f : Form) (d : DB) (req : Request) : bool :=
  match method req with
  | POST => is_nil (errors f d req)
  | GET => false
  end.

(** The errors the form carries when it is handed to the template: none
    unless it was validated. *)
Definition shown_errors (f : Form) (d : DB) (req : Request) : FormErrors :=
  match method req with
  | POST => errors f d req
  | GET => []
  end.

(** ** Flask, Flask-Login and Flask-SQLAlchemy operations *)

Definition flash (message : string) : View unit :=
  modify (λ w, mkWorld (db w) (session w) (flashes w ++ [message])).

(** [load_user(id)]: [User.query.get(int(id))]. *)
Definition load_user (d : DB) (uid : nat) : option User.t := user d !! uid.

(** The user of the session: the row [load_user] finds for the id stored
    in the cookie, or nobody (the anonymous user). *)
Definition _get_user (w : World) : option (nat * User.t) :=
  uid ← _user_id (session w);
  u ← load_user (db w) uid;
  Some (uid, u).

Definition current_user : View (option (nat * User.t)) := gets _get_user.

(** Reading an attribute of [current_user] that only a [User] row has. *)
Definition current_user_attr {A} (name : string) (f : nat * User.t → A) : View A :=
  cu ← current_user;
  match cu with
  | Some u => mret (f u)
  | None => raise (AttributeError name)
  end.

(** [login_user(user, remember=...)]: the session now names the user. *)
Definition login_user (uid : nat) (remember : bool) : View unit :=
  modify (λ w, mkWorld (db w) (mkSession (Some uid) remember) (flashes w)).

(** [logout_user()]: the session names nobody. *)
Definition logout_user : View unit :=
  modify (λ w, mkWorld (db w) anonymous (flashes w)).

(** [LoginManager.unauthorized] with [login_view = 'login']: the default
    message is flashed and the client is sent to the login page, with the
    requested path as [next]. *)
Definition unauthorized (req : Request) : View Response :=
  flash "Please log in to access this page.";;
  mret (redirect (url_for "login" [("next", path req)])).

(** The decorator [@login_required]. *)
Definition login_required (view : Request → View Response) : Request → View Response :=
  λ req,
    cu ← current_user;
    match cu with
    | Some _ => view req
    | None => unauthorized req
    end.

(** A row with the same non-null [username] or [email] is already stored
    (both columns are declared [unique=True]). *)
Definition violates_unique (u : User.t) (table : gmap nat User.t) : bool :=
  (bool_decide (User.username u ≠ None)
   && negb (is_nil (filter_by_all (λ r, bool_decide (User.username r = User.username u)) table)))
  || (bool_decide (User.email u ≠ None)
      && negb (is_nil (filter_by_all (λ r, bool_decide (User.email r = User.email u)) table))).

(** [db.session.add(user); db.session.commit()]. *)
Definition add_user (u : User.t) : View unit :=
  d ← gets db;
  if violates_unique u (user d) then raise IntegrityError
  else modify (λ w, mkWorld (mkDB (<[next_id (user d) := u]> (user d)) (consultation d))
                            (session w) (flashes w)).

(** [db.session.add(consultation); db.session.commit()]. *)
Definition add_consultation (c : Consultation.t) : View unit :=
  modify (λ w, mkWorld (mkDB (user (db w))
                             (<[next_id (consultation (db w)) := c]> (consultation (db w))))
                       (session w) (flashes w)).

(** [db.session.commit()] after an attribute of the row [cid] was set. *)
Definition commit_consultation (cid : nat) (c : Consultation.t) : View unit :=
  modify (λ w, mkWorld (mkDB (user (db w)) (<[cid := c]> (consultation (db w))))
                       (session w) (flashes w)).

(** [Consultation.query.get_or_404(cid)]. *)
Definition get_or_404 (cid : nat) : View Consultation.t :=
  d ← gets db;
  match consultation d !! cid with
  | Some c => mret c
  | None => raise NotFound
  end.

(** [User.set_password], giving the new [password_hash]. *)
Definition set_password `{Libraries} (password : option string) : View (option string) :=
  match password with
  | Some p => mret (Some (generate_password_hash p))
  | None => raise TypeError
  end.

(** [User.check_password]. *)
Definition check_password `{Libraries} (u : User.t) (password : option string) : View bool :=
  match User.password_hash u, password with
  | Some h, Some p => mret (check_password_hash h p)
  | _, _ => raise TypeError
  end.

(** ** The view functions *)

Section Views.
Context `{Libraries}.

Definition index : Request → View Response :=
  login_required (λ _, mret (render_template "index.html" (page "Home"))).

Definition login (req : Request) : View Response :=
  cu ← current_user;
  match cu with
  | Some _ => mret (redirect (url_for "index" []))
  | None =>
      d ← gets db;
      if validate_on_submit LoginForm d req then
        let user :=
          filter_by_first (λ u, bool_decide (User.username u = data "username" req)) (user d) in
        let invalid :=
          flash "Invalid username or password";;
          mret (redirect (url_for "login" [])) in
        match user with
        | None => invalid
        | Some (uid, u) =>
            ok ← check_password u (data "password" req);
            if negb ok then invalid
            else
              login_user uid (checked "remember_me" req);;
              let next_page := get "next" (args req) in
              match next_page with
              | Some target =>
                  if negb (truthy target) then mret (redirect (url_for "index" []))
                  else
                    netloc ← load_global "url_parse" url_parse_netloc;
                    if negb (String.eqb (netloc target) "")
                    then mret (redirect (url_for "index" []))
                    else mret (redirect (url target))
              | None => mret (redirect (url_for "index" []))
              end
        end
      else mret (render_template "login.html" (with_form "Sign In" (shown_errors LoginForm d req)))
  end.

Definition logout (_ : Request) : View Response :=
  logout_user;;
  mret (redirect (url_for "index" [])).

Definition register (req : Request) : View Response :=
  cu ← current_user;
  match cu with
  | Some _ => mret (redirect (url_for "index" []))
  | None =>
      d ← gets db;
      if validate_on_submit RegistrationForm d req then
        password_hash ← set_password (data "password" req);
        let user :=
          User.mk (data "username" req) (data "email" req) password_hash (data "role" req) in
        add_user user;;
        flash "Congratulations, you are now a registered user!";;
        mret (redirect (url_for "login" []))
      else
        mret (render_template "register.html"
                (with_form "Register" (shown_errors RegistrationForm d req)))
  end.

Definition profile : Request → View Response :=
  login_required (λ _,
    user ← current_user;
    mret (render_template "profile.html" (with_user "Profile" user))).

Definition consultation_request : Request → View Response :=
  login_required (λ req,
    d ← gets db;
    if validate_on_submit ConsultationForm d req then
      author ← current_user_attr "id" fst;
      let consultation :=
        Consultation.mk (data "body" req) (Some (utcnow req)) (Some author) None None in
      add_consultation consultation;;
      flash "Your consultation request has been submitted.";;
      mret (redirect (url_for "index" []))
    else
      mret (render_template "consultation_request.html"
              (with_form "Consultation Request" (shown_errors ConsultationForm d req)))).

Definition consultations : Request → View Response :=
  login_required (λ _,
    role ← current_user_attr "role" (λ u, User.role u.2);
    if bool_decide (role ≠ Some "doctor") then mret (redirect (url_for "index" []))
    else
      d ← gets db;
      let consultations :=
        filter_by_all (λ c, bool_decide (Consultation.responder_id c = None)) (consultation d) in
      mret (render_template "consultations.html" (with_consultations "Consultations" consultations))).

Definition chat (consultation_id : nat) : Request → View Response :=
  login_required (λ req,
    consultation ← get_or_404 consultation_id;
    role ← current_user_attr "role" (λ u, User.role u.2);
    consultation ←
      (if bool_decide (role = Some "doctor")
          && bool_decide (Consultation.responder_id consultation = None)
       then
         uid ← current_user_attr "id" fst;
         let claimed := Consultation.set_responder_id (Some uid) consultation in
         commit_consultation consultation_id claimed;;
         mret claimed
       else mret consultation);
    consultation ←
      (match method req with
       | POST =>
           let response := get "response" (form req) in
           let answered := Consultation.set_response response consultation in
           commit_consultation consultation_id answered;;
           mret answered
       | GET => mret consultation
       end);
    mret (render_template "chat.html" (with_consultation "Chat" (consultation_id, consultation)))).

End Views.

(** ** Routing *)

Module Endpoint.
(** The URL rules of the application, after URL matching:
    [/] and [/index], [/login], [/logout], [/register], [/profile],
    [/consultation_request], [/consultations], [/chat/<int:consultation_id>]. *)
Inductive t :=
| index
| login
| logout
| register
| profile
| consultation_request
| consultations
| chat (consultation_id : nat).
End Endpoint.

(** The [methods=] of each [@app.route] (only [GET] when not given). *)
Definition methods (e : Endpoint.t) : list Method :=
  match e with
  | Endpoint.login | Endpoint.register
  | Endpoint.consultation_request | Endpoint.chat _ => [GET; POST]
  | _ => [GET]
  end.

Definition Method_eqb (a b : Method) : bool :=
  match a, b with
  | GET, GET | POST, POST => true
  | _, _ => false
  end.

Section Application.
Context `{Libraries}.

Definition view_function (e : Endpoint.t) : Request → View Response :=
  match e with
  | Endpoint.index => index
  | Endpoint.login => login
  | Endpoint.logout => logout
  | Endpoint.register => register
  | Endpoint.profile => profile
  | Endpoint.consultation_request => consultation_request
  | Endpoint.consultations => consultations
  | Endpoint.chat consultation_id => chat consultation_id
  end.

(** One request through the application: the method is checked against
    the rule, the view runs, and an exception that escapes the view
    becomes an error response. *)
Definition dispatch_request (e : Endpoint.t) (req : Request) (w : World) : Response * World :=
  if existsb (Method_eqb (method req)) (methods e) then
    match view_function e req w with
    | (Return resp, w') => (resp, w')
    | (Raise exc, w') => (error_response exc, w')
    end
  else (method_not_allowed, w).

(** A request as the server receives it: the client's session cookie, the
    matched rule and the request data. *)
Record Exchange := mkExchange {
  cookie : Session;
  endpoint : Endpoint.t;
  request : Request
}.

(** The database after serving one request, and after serving a sequence
    of requests one at a time. *)
Definition serve (d : DB) (x : Exchange) : DB :=
  db (dispatch_request (endpoint x) (request x) (mkWorld d (cookie x) [])).2.

Definition serve_all (d : DB) (xs : list Exchange) : DB := fold_left serve xs d.

End Application.

(** ** A concrete instance for examples

    A toy password scheme (the hash of [p] is [p] behind a fixed prefix),
    an e-mail check that looks for an [@], and a parser that finds no
    network location. *)
Module Sample.

Fixpoint has_at (s : string) : bool :=
  match s with
  | EmptyString => false
  | String c s' => Ascii.eqb c "@"%char || has_at s'
  end.

#[global] Instance libraries : Libraries := {|
  generate_password_hash := λ p, String.append "toy$" p;
  check_password_hash := λ h p, String.eqb h (String.append "toy$" p);
  email_syntax_ok := has_at;
  url_parse_netloc := λ _, ""
|}.

Definition alice : User.t :=
  User.mk (Some "alice") (Some "a@x.com") (Some "toy$pw-a") (Some "military").
Definition bob : User.t :=
  User.mk (Some "bob") (Some "b@x.com") (Some "toy$pw-b") (Some "doctor").
Definition carol : User.t :=
  User.mk (Some "carol") (Some "c@x.com") (Some "toy$pw-c") (Some "doctor").

Definition users : gmap nat User.t := <[1 := alice]> (<[2 := bob]> (<[3 := carol]> ∅)).

Definition need_help_at (t : nat) : Consultation.t :=
  Consultation.mk (Some "need help") (Some t) (Some 1) None None.

Definition need_help : Consultation.t := need_help_at 100.

Definition claimed_by_bob : Consultation.t :=
  Consultation.mk (Some "need help") (Some 100) (Some 1) (Some 2) (Some "see a specialist").

Definition db_open : DB := mkDB users (<[1 := need_help]> ∅).
Definition db_claimed : DB := mkDB users (<[1 := claimed_by_bob]> ∅).

Definition as_user (uid : nat) : Session := mkSession (Some uid) false.

Definition get_request (p : string) : Request := mkRequest GET p [] [] true 200.
Definition post_request (p : string) (fields : MultiDict) : Request :=
  mkRequest POST p [] fields true 200.

(** A world with nothing flashed yet. *)
Definition world (d : DB) (s : Session) : World := mkWorld d s [].

(** A registration form for a new user "dave" with the given role, and one
    that reuses bob's username. *)
Definition dave_form (role : string) : MultiDict :=
  [("username", "dave"); ("email", "d@x.com");
   ("password", "pw-d"); ("password2", "pw-d"); ("role", role)].

Definition bob_again_form : MultiDict :=
  [("username", "bob"); ("email", "bob2@x.com");
   ("password", "pw"); ("password2", "pw"); ("role", "doctor")].

(** bob's login form, posted to [/login] with the given query string. *)
Definition login_request (query : MultiDict) : Request :=
  mkRequest POST "/login" query [("username", "bob"); ("password", "pw-b")] true 200.

(** The database before anybody registered, and a short history on it:
    alice and bob register, alice submits a consultation, bob opens its
    chat. *)
Definition empty_db : DB := mkDB ∅ ∅.

Definition registration (name mail pw role : string) : Request :=
  post_request "/register"
    [("username", name); ("email", mail); ("password", pw); ("password2", pw);
     ("role", role)].

Definition first_day : list Exchange :=
  [ mkExchange anonymous Endpoint.register (registration "alice" "a@x.com" "pw-a" "military");
    mkExchange anonymous Endpoint.register (registration "bob" "b@x.com" "pw-b" "doctor");
    mkExchange (as_user 1) Endpoint.consultation_request
      (post_request "/consultation_request" [("body", "need help")]);
    mkExchange (as_user 2) (Endpoint.chat 1) (get_request "/chat/1") ].

(** A later history on the sample database: dave registers, carol opens
    the chat of consultation 1 and posts a response. *)
Definition later : list Exchange :=
  [ mkExchange anonymous Endpoint.register (post_request "/register" (dave_form "military"));
    mkExchange (as_user 3) (Endpoint.chat 1) (get_request "/chat/1");
    mkExchange (as_user 3) (Endpoint.chat 1)
      (post_request "/chat/1" [("response", "second opinion")]) ].

(** A login form for a username nobody has, and dave's login form. *)
Definition mallory_login : Request :=
  mkRequest POST "/login" [] [("username", "mallory"); ("password", "guess")] true 200.


End Sample.

(** ** The registration rules, as the specification words them

    A registration is turned down when the username or the e-mail already
    belongs to a stored user, the two passwords differ, the e-mail is
    malformed, or a required field is blank. *)

Definition username_taken (d : DB) (req : Request) : Prop :=
  ∃ i u name,
    user d !! i = Some u ∧ User.username u = Some name ∧ data "username" req = Some name.

Definition email_taken (d : DB) (req : Request) : Prop :=
  ∃ i u mail,
    user d !! i = Some u ∧ User.email u = Some mail ∧ data "email" req = Some mail.

Definition passwords_differ (req : Request) : Prop :=
  data "password" req ≠ data "password2" req.

Definition email_malformed `{Libraries} (req : Request) : Prop :=
  ∃ mail, data "email" req = Some mail ∧ email_syntax_ok mail = false.

Definition required_fields : list string :=
  ["username"; "email"; "password"; "password2"; "role"].

Definition required_blank (req : Request) : Prop :=
  ∃ name, name ∈ required_fields ∧ blank (data name req) = true.

Definition rejected `{Libraries} (d : DB) (req : Request) : Prop :=
  username_taken d req ∨ email_taken d req ∨ passwords_differ req
  ∨ email_malformed req ∨ required_blank req.

(** A registration is taken when all five fields are filled in, the e-mail
    is well formed, the passwords agree, and no stored user has the
    username or the e-mail. *)
Definition accepted `{Libraries} (d : DB) (req : Request) : Prop :=
  ∃ name mail p role,
    (data "username" req = Some name ∧ data "email" req = Some mail
     ∧ data "password" req = Some p ∧ data "password2" req = Some p
     ∧ data "role" req = Some role)
    ∧ (all_space name = false ∧ all_space mail = false
       ∧ all_space p = false ∧ all_space role = false)
    ∧ email_syntax_ok mail = true
    ∧ (∀ i u, user d !! i = Some u → User.username u ≠ Some name)
    ∧ (∀ i u, user d !! i = Some u → User.email u ≠ Some mail).

(** ** The access rule, as the specification tabulates it

    The routes whose "Auth" column reads "session": every route except
    [/login] and [/register]. *)
Definition session_required (e : Endpoint.t) : bool :=
  match e with
  | Endpoint.login | Endpoint.register => false
  | _ => true
  end.

(** ** Keeping responders

    [d'] keeps every responder that [d] records: a consultation that has
    a responder in [d] is still stored in [d'], with the same responder. *)
Definition keeps_responders (d d' : DB) : Prop :=
  ∀ cid c r,
    consultation d !! cid = Some c →
    Consultation.responder_id c = Some r →
    ∃ c', consultation d' !! cid = Some c' ∧ Consultation.responder_id c' = Some r.

(** ** What one request can do to the database

    The four ways a request can leave the database: untouched; one more
    user, whose username and e-mail no stored user has; one more
    consultation, open and unanswered, requested by a stored user; or one
    stored consultation rewritten by a stored user, keeping body,
    timestamp and requester, its responder either kept or, when it was
    null and the user is a doctor, set to that user. *)
Inductive db_step (d : DB) : DB → Prop :=
| step_none : db_step d d
| step_register (u : User.t) :
    violates_unique u (user d) = false →
    db_step d (mkDB (<[next_id (user d) := u]> (user d)) (consultation d))
| step_submit (uid : nat) (a : User.t) (body : option string) (now : nat) :
    user d !! uid = Some a →
    db_step d (mkDB (user d)
                 (<[next_id (consultation d) :=
                      Consultation.mk body (Some now) (Some uid) None None]>
                    (consultation d)))
| step_chat (uid : nat) (a : User.t) (cid : nat) (c c' : Consultation.t) :
    user d !! uid = Some a →
    consultation d !! cid = Some c →
    Consultation.body c' = Consultation.body c →
    Consultation.timestamp c' = Consultation.timestamp c →
    Consultation.user_id c' = Consultation.user_id c →
    (Consultation.responder_id c' = Consultation.responder_id c
     ∨ (Consultation.responder_id c = None
        ∧ Consultation.responder_id c' = Some uid
        ∧ User.role a = Some "doctor")) →
    db_step d (mkDB (user d) (<[cid := c']> (consultation d))).

(** No two stored users share a non-null username, nor a non-null
    e-mail. *)
Definition unique_users (d : DB) : Prop :=
  ∀ i j u v,
    user d !! i = Some u → user d !! j = Some v →
    (User.username u ≠ None ∧ User.username u = User.username v)
    ∨ (User.email u ≠ None ∧ User.email u = User.email v) →
    i = j.

(** Every responder recorded on a consultation is a stored user whose role
    is "doctor". *)
Definition responders_are_doctors (d : DB) : Prop :=
  ∀ cid c r,
    consultation d !! cid = Some c → Consultation.responder_id c = Some r →
    ∃ u, user d !! r = Some u ∧ User.role u = Some "doctor".

(** Every consultation names a stored user as its requester. *)
Definition requesters_exist (d : DB) : Prop :=
  ∀ cid c,
    consultation d !! cid = Some c →
    ∃ uid u, Consultation.user_id c = Some uid ∧ user d !! uid = Some u.

(** [d'] still holds every user row of [d], unchanged. *)
Definition keeps_users (d d' : DB) : Prop :=
  ∀ i u, user d !! i = Some u → user d' !! i = Some u.

(** [d'] still holds every consultation of [d], with the body, timestamp
    and requester it had. *)
Definition keeps_requests (d d' : DB) : Prop :=
  ∀ cid c,
    consultation d !! cid = Some c →
    ∃ c', consultation d' !! cid = Some c'
      ∧ Consultation.body c' = Consultation.body c
      ∧ Consultation.timestamp c' = Consultation.timestamp c
      ∧ Consultation.user_id c' = Consultation.user_id c.

(** * Properties *)

(** ** Strings and the [DataRequired] validator *)

Lemma rstrip_truthy s : truthy (rstrip s) = negb (all_space s).
Proof.
  induction s as [|c s IH]; simpl; [done|].
  destruct (rstrip s) eqn:E; simpl in *.
  - destruct (all_space s); [|done]. destruct (isspace c); done.
  - destruct (all_space s); [done|]. by rewrite andb_false_r.
Qed.

Lemma all_space_lstrip s : all_space (lstrip s) = all_space s.
Proof.
  induction s as [|c s IH]; simpl; [done|].
  destruct (isspace c) eqn:E; simpl; [done|]. by rewrite E.
Qed.

Lemma strip_truthy s : truthy (strip s) = negb (all_space s).
Proof. unfold strip. by rewrite rstrip_truthy, all_space_lstrip. Qed.

Lemma all_space_falsy s : truthy s = false → all_space s = true.
Proof. by destruct s. Qed.

Lemma DataRequired_spec d fields data :
  DataRequired d fields data =
    if blank data then StopValidation "This field is required." else Passed.
Proof.
  unfold DataRequired, blank. destruct data as [s|]; [|done].
  rewrite strip_truthy. destruct (all_space s) eqn:E.
  - by rewrite andb_false_r.
  - destruct (truthy s) eqn:T; [done|]. apply all_space_falsy in T. congruence.
Qed.

(** ** Tables and queries *)

Lemma elem_of_filter_by_all {A} (p : A → bool) (table : gmap nat A) i x :
  (i, x) ∈ filter_by_all p table ↔ table !! i = Some x ∧ p x = true.
Proof.
  unfold filter_by_all, rows.
  rewrite list_elem_of_In, filter_In, <- list_elem_of_In, elem_of_map_to_list.
  done.
Qed.

Lemma filter_by_all_nil {A} (p : A → bool) (table : gmap nat A) :
  filter_by_all p table = [] ↔ ∀ i x, table !! i = Some x → p x = false.
Proof.
  split.
  - intros E i x Hx. destruct (p x) eqn:P; [|done].
    assert ((i, x) ∈ filter_by_all p table) as Hin by by apply elem_of_filter_by_all.
    rewrite E in Hin. by apply not_elem_of_nil in Hin.
  - intros Hall. destruct (filter_by_all p table) as [|[i x] l] eqn:E; [done|].
    assert ((i, x) ∈ filter_by_all p table) as Hin by (rewrite E; left).
    apply elem_of_filter_by_all in Hin as [Hx P].
    rewrite (Hall _ _ Hx) in P. done.
Qed.

Lemma filter_by_first_None {A} (p : A → bool) (table : gmap nat A) :
  filter_by_first p table = None ↔ ∀ i x, table !! i = Some x → p x = false.
Proof. unfold filter_by_first. by rewrite head_None, filter_by_all_nil. Qed.

Lemma next_id_fresh {A} (table : gmap nat A) : table !! next_id table = None.
Proof.
  destruct (table !! next_id table) as [x|] eqn:E; [|done].
  assert (next_id table ∈ (rows table).*1) as Hin.
  { apply list_elem_of_fmap. exists (next_id table, x). split; [done|].
    by apply elem_of_map_to_list. }
  apply max_list_elem_of_le in Hin. unfold next_id in Hin at 1. lia.
Qed.

(** ** Running the views *)

Section Properties.
Context `{Libraries}.

Ltac run :=
  unfold login_required, unauthorized, current_user_attr, current_user, get_or_404,
    commit_consultation, add_consultation, add_user, set_password, check_password,
    login_user, logout_user, flash, load_global, raise, gets, modify,
    mbind, mret, View_bind, View_ret; cbv beta iota.

Ltac reduce := cbn beta iota zeta delta [fst snd db session flashes user consultation].

Ltac reduce_in H :=
  cbn beta iota zeta delta [fst snd db session flashes user consultation] in H.

Lemma eta_World w : mkWorld (db w) (session w) (flashes w) = w.
Proof. by destruct w. Qed.

Lemma eta_DB d : mkDB (user d) (consultation d) = d.
Proof. by destruct d. Qed.

(** What [chat] does for a logged-in user, in one equation. *)
Lemma chat_run cid req w uid u :
  _get_user w = Some (uid, u) →
  chat cid req w =
    match consultation (db w) !! cid with
    | None => (Raise NotFound, w)
    | Some c =>
        let c1 :=
          if bool_decide (User.role u = Some "doctor")
             && bool_decide (Consultation.responder_id c = None)
          then Consultation.set_responder_id (Some uid) c else c in
        let c2 :=
          match method req with
          | POST => Consultation.set_response (get "response" (form req)) c1
          | GET => c1
          end in
        (Return (render_template "chat.html" (with_consultation "Chat" (cid, c2))),
         mkWorld (mkDB (user (db w)) (<[cid := c2]> (consultation (db w))))
                 (session w) (flashes w))
    end.
Proof.
  intros Hu. unfold chat. run. rewrite Hu. reduce.
  destruct (consultation (db w) !! cid) as [c|] eqn:Hc; [|done].
  reduce. rewrite Hu. reduce.
  destruct (bool_decide (User.role u = Some "doctor")
            && bool_decide (Consultation.responder_id c = None)) eqn:Hclaim.
  - rewrite Hu. reduce. destruct (method req); reduce.
    + done.
    + by rewrite insert_insert_eq.
  - destruct (method req); reduce.
    + by rewrite (insert_id _ _ _ Hc), eta_DB, eta_World.
    + done.
Qed.

Lemma login_required_anonymous view req w :
  _get_user w = None →
  login_required view req w =
    (Return (redirect (url_for "login" [("next", path req)])),
     mkWorld (db w) (session w) (flashes w ++ ["Please log in to access this page."])).
Proof. intros Hu. run. by rewrite Hu. Qed.

(** The views that never write to the database. *)
Lemma index_db req w : db (index req w).2 = db w.
Proof. unfold index. run. by destruct (_get_user w). Qed.

Lemma profile_db req w : db (profile req w).2 = db w.
Proof.
  unfold profile. run. by destruct (_get_user w).
Qed.

Lemma consultations_db req w : db (consultations req w).2 = db w.
Proof.
  unfold consultations. run. destruct (_get_user w) eqn:Hu; reduce; [|done].
  rewrite Hu. reduce. by case_bool_decide.
Qed.

Lemma logout_db req w : db (logout req w).2 = db w.
Proof. done. Qed.

Lemma login_db req w : db (login req w).2 = db w.
Proof.
  unfold login. run. destruct (_get_user w) eqn:Hu; reduce; [done|].
  destruct (validate_on_submit LoginForm (db w) req); reduce; [|done].
  destruct (filter_by_first _ _) as [[uid u]|]; reduce; [|done].
  destruct (User.password_hash u), (data "password" req); reduce; try done.
  destruct (negb _); reduce; [done|].
  destruct (get "next" (args req)) as [target|]; reduce; [|done].
  destruct (negb (truthy target)); reduce; [done|].
  case_bool_decide; reduce; [|done].
  by destruct (negb _).
Qed.

(** What [register] does for a visitor who is not logged in. *)
Lemma register_run req w :
  _get_user w = None →
  register req w =
    if validate_on_submit RegistrationForm (db w) req then
      match data "password" req with
      | None => (Raise TypeError, w)
      | Some p =>
          let u := User.mk (data "username" req) (data "email" req)
                           (Some (generate_password_hash p)) (data "role" req) in
          if violates_unique u (user (db w)) then (Raise IntegrityError, w)
          else
            (Return (redirect (url_for "login" [])),
             mkWorld (mkDB (<[next_id (user (db w)) := u]> (user (db w)))
                           (consultation (db w)))
                     (session w)
                     (flashes w ++ ["Congratulations, you are now a registered user!"]))
      end
    else
      (Return (render_template "register.html"
                 (with_form "Register" (shown_errors RegistrationForm (db w) req))), w).
Proof.
  intros Hu. unfold register. run. rewrite Hu. reduce.
  destruct (validate_on_submit RegistrationForm (db w) req); reduce; [|done].
  destruct (data "password" req) as [p|]; reduce; [|done].
  by destruct (violates_unique _ _).
Qed.

Lemma register_authenticated req w p :
  _get_user w = Some p →
  register req w = (Return (redirect (url_for "index" [])), w).
Proof. intros Hu. unfold register. run. by rewrite Hu. Qed.

(** What [consultation_request] does for a logged-in user. *)
Lemma consultation_request_run req w uid u :
  _get_user w = Some (uid, u) →
  consultation_request req w =
    if validate_on_submit ConsultationForm (db w) req then
      let c := Consultation.mk (data "body" req) (Some (utcnow req)) (Some uid) None None in
      (Return (redirect (url_for "index" [])),
       mkWorld (mkDB (user (db w))
                     (<[next_id (consultation (db w)) := c]> (consultation (db w))))
               (session w)
               (flashes w ++ ["Your consultation request has been submitted."]))
    else
      (Return (render_template "consultation_request.html"
                 (with_form "Consultation Request"
                    (shown_errors ConsultationForm (db w) req))), w).
Proof.
  intros Hu. unfold consultation_request. run. rewrite Hu. reduce.
  destruct (validate_on_submit ConsultationForm (db w) req); reduce; [|done].
  by rewrite Hu.
Qed.

(** What [consultations] does for a logged-in user. *)
Lemma consultations_run req w uid u :
  _get_user w = Some (uid, u) →
  consultations req w =
    if bool_decide (User.role u ≠ Some "doctor")
    then (Return (redirect (url_for "index" [])), w)
    else
      (Return (render_template "consultations.html"
                 (with_consultations "Consultations"
                    (filter_by_all
                       (λ c, bool_decide (Consultation.responder_id c = None))
                       (consultation (db w))))), w).
Proof.
  intros Hu. unfold consultations. run. rewrite Hu. reduce. rewrite Hu. reduce.
  by case_bool_decide.
Qed.
(** ** The responder of a consultation *)

Lemma keeps_responders_refl d : keeps_responders d d.
Proof. intros cid c r Hc Hr. eauto. Qed.

Lemma keeps_responders_trans d1 d2 d3 :
  keeps_responders d1 d2 → keeps_responders d2 d3 → keeps_responders d1 d3.
Proof.
  intros H12 H23 cid c r Hc Hr.
  destruct (H12 _ _ _ Hc Hr) as (c2 & Hc2 & Hr2). eauto.
Qed.

Lemma keeps_responders_same d d' :
  consultation d' = consultation d → keeps_responders d d'.
Proof. intros E cid c r Hc Hr. rewrite E. eauto. Qed.

Lemma chat_keeps_responders cid req w :
  keeps_responders (db w) (db (chat cid req w).2).
Proof.
  destruct (_get_user w) as [[uid u]|] eqn:Hu.
  - rewrite (chat_run _ _ _ _ _ Hu).
    destruct (consultation (db w) !! cid) as [c0|] eqn:Hc0; [|apply keeps_responders_refl].
    intros cid' c r Hc Hr. reduce.
    destruct (decide (cid = cid')) as [->|Hne].
    + rewrite lookup_insert_eq. eexists; split; [done|].
      assert (c0 = c) as -> by congruence.
      rewrite Hr. rewrite (bool_decide_eq_false_2 (Some r = None)) by done.
      rewrite andb_false_r. by destruct (method req).
    + rewrite lookup_insert_ne by done. eauto.
  - unfold chat. rewrite login_required_anonymous by done. apply keeps_responders_refl.
Qed.

Lemma consultation_request_keeps_responders req w :
  keeps_responders (db w) (db (consultation_request req w).2).
Proof.
  destruct (_get_user w) as [[uid u]|] eqn:Hu.
  - rewrite (consultation_request_run _ _ _ _ Hu).
    destruct (validate_on_submit _ _ _); [|apply keeps_responders_refl].
    intros cid c r Hc Hr. reduce.
    rewrite lookup_insert_ne; [eauto|].
    intros <-. by rewrite next_id_fresh in Hc.
  - unfold consultation_request. rewrite login_required_anonymous by done.
    apply keeps_responders_refl.
Qed.

Lemma register_consultation req w :
  consultation (db (register req w).2) = consultation (db w).
Proof.
  destruct (_get_user w) as [p|] eqn:Hu.
  - by rewrite (register_authenticated _ _ _ Hu).
  - rewrite (register_run _ _ Hu).
    destruct (validate_on_submit _ _ _); [|done].
    destruct (data "password" req); [|done].
    cbv zeta. by destruct (violates_unique _ _).
Qed.

Lemma dispatch_keeps_responders e req w :
  keeps_responders (db w) (db (dispatch_request e req w).2).
Proof.
  unfold dispatch_request.
  destruct (existsb _ _); [|apply keeps_responders_refl].
  assert (keeps_responders (db w) (db (view_function e req w).2)) as Hview.
  { destruct e; unfold view_function.
    - apply keeps_responders_same. by rewrite index_db.
    - apply keeps_responders_same. by rewrite login_db.
    - apply keeps_responders_same. by rewrite logout_db.
    - apply keeps_responders_same, register_consultation.
    - apply keeps_responders_same. by rewrite profile_db.
    - apply consultation_request_keeps_responders.
    - apply keeps_responders_same. by rewrite consultations_db.
    - apply chat_keeps_responders. }
  by destruct (view_function e req w) as [[resp|exc] w'].
Qed.

Lemma serve_all_keeps_responders xs d : keeps_responders d (serve_all d xs).
Proof.
  revert d. induction xs as [|x xs IH]; intros d; [apply keeps_responders_refl|].
  simpl. eapply keeps_responders_trans; [|apply IH].
  apply (dispatch_keeps_responders (endpoint x) (request x) (mkWorld d (cookie x) [])).
Qed.


(** ** Form validation *)

Lemma errors_nil f d req :
  errors f d req = [] ↔
  csrf_valid req = true
  ∧ ∀ fld, fld ∈ f → _run_validation_chain d (form req) (data fld.1 req) fld.2 = [].
Proof.
  unfold errors. split.
  - intros E. apply app_eq_nil in E as [Ecsrf Efields]. split.
    + by destruct (csrf_valid req).
    + intros fld Hin.
      destruct (_run_validation_chain d (form req) (data fld.1 req) fld.2) as [|m ms] eqn:Hchain;
        [done|].
      assert ((fld.1, m :: ms) ∈ @nil (string * list string)) as Hbad.
      { rewrite <- Efields. apply list_elem_of_omap. exists fld. by rewrite Hchain. }
      by apply not_elem_of_nil in Hbad.
  - intros [-> Hall]. simpl.
    destruct (omap _ f) as [|e es] eqn:E; [done|].
    assert (e ∈ e :: es) as Hin by left. rewrite <- E in Hin.
    apply list_elem_of_omap in Hin as (fld & Hfld & Hsome).
    by rewrite (Hall _ Hfld) in Hsome.
Qed.

Lemma validate_on_submit_true f d req :
  validate_on_submit f d req = true ↔ method req = POST ∧ errors f d req = [].
Proof.
  unfold validate_on_submit. destruct (method req).
  - split; [done|]. by intros [? _].
  - destruct (errors f d req); simpl; split; try done; by intros [_ ?].
Qed.

Lemma validate_username_Passed d fields name :
  validate_username d fields (Some name) = Passed ↔
  ∀ i u, user d !! i = Some u → User.username u ≠ Some name.
Proof.
  unfold validate_username. case_bool_decide as Hq.
  - split; [done|]. intros Hfree. exfalso. apply Hq.
    apply filter_by_first_None. intros i u Hu. apply bool_decide_eq_false_2. eauto.
  - split; [|done]. intros _ i u Hu.
    eapply filter_by_first_None in Hq; [|done]. by apply bool_decide_eq_false_1 in Hq.
Qed.

Lemma validate_email_Passed d fields mail :
  validate_email d fields (Some mail) = Passed ↔
  ∀ i u, user d !! i = Some u → User.email u ≠ Some mail.
Proof.
  unfold validate_email. case_bool_decide as Hq.
  - split; [done|]. intros Hfree. exfalso. apply Hq.
    apply filter_by_first_None. intros i u Hu. apply bool_decide_eq_false_2. eauto.
  - split; [|done]. intros _ i u Hu.
    eapply filter_by_first_None in Hq; [|done]. by apply bool_decide_eq_false_1 in Hq.
Qed.

Lemma chain_cons_nil d fields dat v rest :
  _run_validation_chain d fields dat (v :: rest) = [] ↔
  v d fields dat = Passed ∧ _run_validation_chain d fields dat rest = [].
Proof. simpl. destruct (v d fields dat); split; try done; by intros [? ?]. Qed.

Lemma DataRequired_Passed d fields dat :
  DataRequired d fields dat = Passed ↔ ∃ s, dat = Some s ∧ all_space s = false.
Proof.
  rewrite DataRequired_spec. destruct dat as [s|]; simpl.
  - destruct (all_space s) eqn:E.
    + split; [done|]. intros (s' & [= <-] & Hs). congruence.
    + split; [eauto|done].
  - split; [done|]. by intros (? & ? & ?).
Qed.

Lemma blank_false dat : blank dat = false ↔ ∃ s, dat = Some s ∧ all_space s = false.
Proof.
  destruct dat as [s|]; simpl.
  - split; [eauto|]. by intros (? & [= ->] & ?).
  - split; [done|]. by intros (? & ? & ?).
Qed.

Lemma Email_Passed d fields mail :
  Email d fields (Some mail) = Passed ↔ email_syntax_ok mail = true.
Proof. unfold Email. by destruct (email_syntax_ok mail). Qed.

Lemma EqualTo_Passed name d fields dat :
  EqualTo name d fields dat = Passed ↔ dat = get name fields.
Proof.
  unfold EqualTo. case_bool_decide as Hq.
  - split; [done|]. intros E. by destruct Hq.
  - done.
Qed.

Lemma RegistrationForm_errors_nil d req :
  errors RegistrationForm d req = [] ↔ csrf_valid req = true ∧ accepted d req.
Proof.
  rewrite errors_nil, <- Forall_forall. unfold RegistrationForm, accepted.
  rewrite !Forall_cons, Forall_nil. cbn [fst snd].
  rewrite !chain_cons_nil, !DataRequired_Passed, EqualTo_Passed. cbn [_run_validation_chain].
  split.
  - intros (Hcsrf & ((name & Hname & Hn) & Hfree & _) & ((mail & Hmail & Hm) & Hsyn & Hfree' & _)
            & ((p & Hp & Hpb) & _) & ((p2 & Hp2 & _) & Heq & _) & ((role & Hrole & Hr) & _) & _).
    split; [done|]. exists name, mail, p, role.
    rewrite Hname in Hfree. rewrite Hmail in Hsyn, Hfree'.
    pose proof (proj1 (validate_username_Passed _ _ _) Hfree) as Hfree1.
    pose proof (proj1 (validate_email_Passed _ _ _) Hfree') as Hfree2.
    apply Email_Passed in Hsyn.
    assert (data "password2" req = Some p) as Hp2'.
    { rewrite Heq. exact Hp. }
    done.
  - intros (Hcsrf & name & mail & p & role & (Hname & Hmail & Hp & Hp2 & Hrole)
            & (Hn & Hm & Hpb & Hr) & Hsyn & Hfree & Hfree').
    rewrite Hname, Hmail, Hp, Hp2, Hrole.
    rewrite validate_username_Passed, validate_email_Passed, Email_Passed.
    repeat split; eauto.
Qed.

Lemma rejected_not_accepted d req : rejected d req → ¬ accepted d req.
Proof.
  intros Hrej (name & mail & p & role & (Hname & Hmail & Hp & Hp2 & Hrole)
               & (Hn & Hm & Hpb & Hr) & Hsyn & Hfree & Hfree').
  destruct Hrej as [(i & u & n' & Hu & Hun & Hd)|[(i & u & m' & Hu & Hum & Hd)|[Hdiff|[(m' & Hd & Hbad)|(f & Hf & Hblank)]]]].
  - apply (Hfree i u Hu). congruence.
  - apply (Hfree' i u Hu). congruence.
  - apply Hdiff. congruence.
  - congruence.
  - unfold required_fields in Hf. set_unfold in Hf.
    destruct Hf as [-> | [-> | [-> | [-> | [-> | []]]]]];
      [rewrite Hname in Hblank|rewrite Hmail in Hblank|rewrite Hp in Hblank
      |rewrite Hp2 in Hblank|rewrite Hrole in Hblank]; simpl in Hblank; congruence.
Qed.

Lemma not_rejected_accepted d req : ¬ rejected d req → accepted d req.
Proof.
  intros Hnot.
  assert (∀ f, f ∈ required_fields → ∃ s, data f req = Some s ∧ all_space s = false) as Hfilled.
  { intros f Hf. apply blank_false. destruct (blank (data f req)) eqn:E; [|done].
    exfalso. apply Hnot. do 4 right. by exists f. }
  destruct (Hfilled "username") as (name & Hname & Hn); [unfold required_fields; set_solver +|].
  destruct (Hfilled "email") as (mail & Hmail & Hm); [unfold required_fields; set_solver +|].
  destruct (Hfilled "password") as (p & Hp & Hpb); [unfold required_fields; set_solver +|].
  destruct (Hfilled "password2") as (p2 & Hp2 & _); [unfold required_fields; set_solver +|].
  destruct (Hfilled "role") as (role & Hrole & Hr); [unfold required_fields; set_solver +|].
  assert (p2 = p) as ->.
  { destruct (decide (p2 = p)) as [|Hne]; [done|]. exfalso. apply Hnot.
    do 2 right. left. unfold passwords_differ. congruence. }
  exists name, mail, p, role. repeat split; try done.
  - destruct (email_syntax_ok mail) eqn:E; [done|]. exfalso. apply Hnot.
    do 3 right. left. by exists mail.
  - intros i u Hu Hun. apply Hnot. left. by exists i, u, name.
  - intros i u Hu Hum. apply Hnot. right. left. by exists i, u, mail.
Qed.

Lemma register_methods req : existsb (Method_eqb (method req)) (methods Endpoint.register) = true.
Proof. by destruct (method req). Qed.

Lemma rejected_not_validated d req :
  rejected d req → validate_on_submit RegistrationForm d req = false.
Proof.
  intros Hrej. destruct (validate_on_submit RegistrationForm d req) eqn:E; [|done].
  apply validate_on_submit_true in E as [_ E].
  apply RegistrationForm_errors_nil in E as [_ Hacc].
  by destruct (rejected_not_accepted _ _ Hrej).
Qed.

Lemma accepted_unique (d : DB) name mail ph role :
  (∀ i u, user d !! i = Some u → User.username u ≠ Some name) →
  (∀ i u, user d !! i = Some u → User.email u ≠ Some mail) →
  violates_unique (User.mk (Some name) (Some mail) ph role) (user d) = false.
Proof.
  intros Hfree Hfree'. unfold violates_unique. cbn [User.username User.email].
  rewrite (proj2 (filter_by_all_nil _ (user d))).
  2:{ intros i u Hu. apply bool_decide_eq_false_2. eauto. }
  rewrite (proj2 (filter_by_all_nil _ (user d))).
  2:{ intros i u Hu. apply bool_decide_eq_false_2. eauto. }
  cbn [is_nil negb]. by rewrite !andb_false_r.
Qed.

(** C2.  Registration, for a request to [/register] in world [w].
    Whenever the submission is rejected by the rules (username or e-mail
    already in use, passwords that differ, malformed e-mail, a blank
    required field) the database is left as it was, and for a form posted
    by a visitor who is not logged in the response is the registration form
    carrying at least one validation error.  Whenever none of the rules
    rejects it (and the form's CSRF token is valid), the response redirects
    to the login page and exactly one row is added to the user table, under
    a key that was free: the submitted username, e-mail and role with
    [generate_password_hash] of the submitted password, which is not the
    plaintext as long as the hash of that password differs from it. *)
Theorem register_validation (req : Request) (w : World) :
  let out := dispatch_request Endpoint.register req w in
  (rejected (db w) req →
     db out.2 = db w
     ∧ (_get_user w = None → method req = POST →
        ∃ errs, errs ≠ []
                ∧ out.1 = render_template "register.html" (with_form "Register" errs)))
  ∧ (¬ rejected (db w) req →
     _get_user w = None → method req = POST → csrf_valid req = true →
     ∃ name mail p role,
       (data "username" req = Some name ∧ data "email" req = Some mail
        ∧ data "password" req = Some p ∧ data "role" req = Some role)
       ∧ out.1 = redirect (url_for "login" [])
       ∧ user (db w) !! next_id (user (db w)) = None
       ∧ user (db out.2) =
           <[next_id (user (db w)) :=
               User.mk (Some name) (Some mail) (Some (generate_password_hash p)) (Some role)]>
             (user (db w))
       ∧ consultation (db out.2) = consultation (db w)
       ∧ (generate_password_hash p ≠ p →
          ∀ u, user (db out.2) !! next_id (user (db w)) = Some u →
               User.password_hash u ≠ Some p)).
Proof.
  cbv zeta. unfold dispatch_request, view_function. rewrite register_methods. split.
  - intros Hrej. destruct (_get_user w) as [cu|] eqn:Hu.
    + rewrite (register_authenticated _ _ _ Hu). split; [done|]. intros; done.
    + rewrite (register_run _ _ Hu), (rejected_not_validated _ _ Hrej). split; [done|].
      intros _ Hpost. exists (shown_errors RegistrationForm (db w) req). split; [|done].
      unfold shown_errors. rewrite Hpost. intros E.
      apply RegistrationForm_errors_nil in E as [_ Hacc].
      by destruct (rejected_not_accepted _ _ Hrej).
  - intros Hnot Hu Hpost Hcsrf.
    destruct (not_rejected_accepted _ _ Hnot)
      as (name & mail & p & role & (Hname & Hmail & Hp & Hp2 & Hrole)
          & Hfilled & Hsyn & Hfree & Hfree').
    assert (accepted (db w) req) as Hacc by (by exists name, mail, p, role).
    assert (validate_on_submit RegistrationForm (db w) req = true) as Hval.
    { apply validate_on_submit_true. split; [done|]. by apply RegistrationForm_errors_nil. }
    rewrite (register_run _ _ Hu), Hval, Hp, Hname, Hmail, Hrole. cbv zeta.
    rewrite accepted_unique by done. reduce.
    exists name, mail, p, role. repeat split; try done.
    + apply next_id_fresh.
    + intros Hhash u. rewrite lookup_insert_eq. intros [= <-]. simpl. congruence.
Qed.

(** ** Submitting a consultation *)

Lemma ConsultationForm_errors_nil d req :
  errors ConsultationForm d req = [] ↔
  csrf_valid req = true ∧ blank (data "body" req) = false.
Proof.
  rewrite errors_nil, <- Forall_forall. unfold ConsultationForm.
  rewrite !Forall_cons, Forall_nil. cbn [fst snd].
  rewrite chain_cons_nil, DataRequired_Passed, blank_false. cbn [_run_validation_chain].
  split; [by intros (? & (? & _) & _)|by intros [? ?]].
Qed.

Lemma consultation_request_methods req :
  existsb (Method_eqb (method req)) (methods Endpoint.consultation_request) = true.
Proof. by destruct (method req). Qed.

(** C3.  Submitting a consultation, for a logged-in user [uid].  A posted
    form with a valid token and a body that is not blank adds exactly one
    row to the consultation table, under a key that was free: the body as
    submitted, the clock reading as timestamp, [uid] as requester, and
    neither responder nor response; the user table is untouched.  A blank
    body leaves the whole database as it was. *)
Theorem consultation_request_creates (req : Request) (w : World) (uid : nat) (u : User.t) :
  _get_user w = Some (uid, u) →
  let out := dispatch_request Endpoint.consultation_request req w in
  (method req = POST → csrf_valid req = true → blank (data "body" req) = false →
     consultation (db w) !! next_id (consultation (db w)) = None
     ∧ consultation (db out.2) =
         <[next_id (consultation (db w)) :=
             Consultation.mk (data "body" req) (Some (utcnow req)) (Some uid) None None]>
           (consultation (db w))
     ∧ user (db out.2) = user (db w))
  ∧ (blank (data "body" req) = true → db out.2 = db w).
Proof.
  intros Hu. cbv zeta. unfold dispatch_request, view_function.
  rewrite consultation_request_methods, (consultation_request_run _ _ _ _ Hu). split.
  - intros Hpost Hcsrf Hbody.
    rewrite (proj2 (validate_on_submit_true _ _ _)).
    2:{ split; [done|]. by apply ConsultationForm_errors_nil. }
    reduce. split; [apply next_id_fresh|done].
  - intros Hblank.
    destruct (validate_on_submit ConsultationForm (db w) req) eqn:E; [|done].
    apply validate_on_submit_true in E as [_ E].
    apply ConsultationForm_errors_nil in E as [_ E]. congruence.
Qed.

(** ** Opening a chat and responding *)

Lemma chat_methods cid req :
  existsb (Method_eqb (method req)) (methods (Endpoint.chat cid)) = true.
Proof. by destruct (method req). Qed.

(** C5.  Opening [/chat/<cid>] as a logged-in user [uid].  The response is
    NotFound exactly when no consultation has the id [cid] (and then the
    world is untouched).  When the consultation exists it is still stored
    afterwards; its responder becomes [uid] if the user's role is "doctor"
    and the responder was null, and is what it was in every other case;
    every other consultation is as before. *)
Theorem chat_open (cid : nat) (req : Request) (w : World) (uid : nat) (u : User.t) :
  _get_user w = Some (uid, u) →
  let out := dispatch_request (Endpoint.chat cid) req w in
  (out.1 = error_response NotFound ↔ consultation (db w) !! cid = None)
  ∧ (consultation (db w) !! cid = None → out.2 = w)
  ∧ (∀ c, consultation (db w) !! cid = Some c →
       ∃ c', consultation (db out.2) !! cid = Some c'
         ∧ (User.role u = Some "doctor" → Consultation.responder_id c = None →
            Consultation.responder_id c' = Some uid)
         ∧ (User.role u ≠ Some "doctor" ∨ Consultation.responder_id c ≠ None →
            Consultation.responder_id c' = Consultation.responder_id c)
         ∧ (∀ other, other ≠ cid →
              consultation (db out.2) !! other = consultation (db w) !! other)).
Proof.
  intros Hu. cbv zeta. unfold dispatch_request, view_function.
  rewrite chat_methods, (chat_run _ _ _ _ _ Hu).
  destruct (consultation (db w) !! cid) as [c|] eqn:Hc.
  - reduce. split; [done|]. split; [done|]. intros c0 [= <-].
    rewrite lookup_insert_eq. eexists; split; [done|]. repeat split.
    + intros Hrole Hnone.
      rewrite (bool_decide_eq_true_2 _ Hrole), (bool_decide_eq_true_2 _ Hnone).
      by destruct (method req).
    + intros Hother.
      assert (bool_decide (User.role u = Some "doctor")
              && bool_decide (Consultation.responder_id c = None) = false) as ->.
      { apply andb_false_iff. destruct Hother.
        - left. by apply bool_decide_eq_false_2.
        - right. by apply bool_decide_eq_false_2. }
      by destruct (method req).
    + intros other Hne. by rewrite lookup_insert_ne.
  - reduce. split; [done|]. split; [done|]. intros c0 [=].
Qed.

(** C6.  Responding, for any logged-in user and any stored consultation: a
    POST to [/chat/<cid>] carrying a ['response'] field stores that text as
    the consultation's response, whatever the response was before and
    whoever the responder is; body, timestamp and requester are kept. *)
Theorem chat_respond_overwrites (cid : nat) (req : Request) (w : World)
    (uid : nat) (u : User.t) (c : Consultation.t) (text : string) :
  _get_user w = Some (uid, u) →
  consultation (db w) !! cid = Some c →
  method req = POST →
  get "response" (form req) = Some text →
  let out := dispatch_request (Endpoint.chat cid) req w in
  ∃ c', consultation (db out.2) !! cid = Some c'
    ∧ Consultation.response c' = Some text
    ∧ Consultation.body c' = Consultation.body c
    ∧ Consultation.timestamp c' = Consultation.timestamp c
    ∧ Consultation.user_id c' = Consultation.user_id c
    ∧ out.1 = render_template "chat.html" (with_consultation "Chat" (cid, c')).
Proof.
  intros Hu Hc Hpost Htext. cbv zeta. unfold dispatch_request, view_function.
  rewrite chat_methods, (chat_run _ _ _ _ _ Hu), Hc, Hpost, Htext. reduce.
  rewrite lookup_insert_eq. eexists; split; [done|].
  by destruct (bool_decide _ && bool_decide _).
Qed.

(** C10.  A POST to [/chat/<cid>] whose form has no ['response'] field, by
    any logged-in user on any stored consultation, stores a null response:
    whatever text was stored before is gone. *)
Theorem chat_post_without_response_erases (cid : nat) (req : Request) (w : World)
    (uid : nat) (u : User.t) (c : Consultation.t) :
  _get_user w = Some (uid, u) →
  consultation (db w) !! cid = Some c →
  method req = POST →
  get "response" (form req) = None →
  let out := dispatch_request (Endpoint.chat cid) req w in
  ∃ c', consultation (db out.2) !! cid = Some c'
    ∧ Consultation.response c' = None
    ∧ out.1 = render_template "chat.html" (with_consultation "Chat" (cid, c')).
Proof.
  intros Hu Hc Hpost Hmissing. cbv zeta. unfold dispatch_request, view_function.
  rewrite chat_methods, (chat_run _ _ _ _ _ Hu), Hc, Hpost, Hmissing. reduce.
  rewrite lookup_insert_eq. eexists; split; [done|].
  by destruct (bool_decide _ && bool_decide _).
Qed.

(** ** The doctor's queue *)

Lemma chat_claims_for_doctor cid req w did doc c :
  _get_user w = Some (did, doc) →
  User.role doc = Some "doctor" →
  consultation (db w) !! cid = Some c →
  ∃ c' r, consultation (db (dispatch_request (Endpoint.chat cid) req w).2) !! cid = Some c'
          ∧ Consultation.responder_id c' = Some r.
Proof.
  intros Hu Hrole Hc. unfold dispatch_request, view_function.
  rewrite chat_methods, (chat_run _ _ _ _ _ Hu), Hc. reduce.
  rewrite lookup_insert_eq, (bool_decide_eq_true_2 _ Hrole). cbn [andb].
  destruct (Consultation.responder_id c) as [r|] eqn:Hr.
  - rewrite (bool_decide_eq_false_2 (Some r = None)) by done.
    exists (match method req with
            | POST => Consultation.set_response (get "response" (form req)) c
            | GET => c
            end), r.
    split; [done|]. by destruct (method req).
  - rewrite (bool_decide_eq_true_2 (None = None)) by done.
    eexists _, did. split; [done|]. by destruct (method req).
Qed.

Lemma dispatch_consultations req w uid u :
  _get_user w = Some (uid, u) →
  method req = GET →
  dispatch_request Endpoint.consultations req w =
    if bool_decide (User.role u ≠ Some "doctor")
    then (redirect (url_for "index" []), w)
    else
      (render_template "consultations.html"
         (with_consultations "Consultations"
            (filter_by_all
               (λ c, bool_decide (Consultation.responder_id c = None))
               (consultation (db w)))), w).
Proof.
  intros Hu Hget. unfold dispatch_request, view_function.
  rewrite Hget. cbn [methods existsb Method_eqb orb].
  rewrite (consultations_run _ _ _ _ Hu). by case_bool_decide.
Qed.

(** C4.  The queue at [/consultations], for a logged-in user [uid].  For a
    doctor the page lists, without repetition, exactly the stored
    consultations whose responder is null, and nothing in the world
    changes.  For any other role the response is a redirect to the home
    page and the world is unchanged: no message is flashed and no error is
    raised.  Consequently a consultation that was just submitted is in the
    doctor's list, and a consultation whose chat a doctor has just opened
    is not. *)
Theorem consultations_lists_open (req : Request) (w : World) (uid : nat) (u : User.t) :
  _get_user w = Some (uid, u) →
  method req = GET →
  let out := dispatch_request Endpoint.consultations req w in
  (User.role u = Some "doctor" →
     ∃ l, out = (render_template "consultations.html"
                   (with_consultations "Consultations" l), w)
       ∧ NoDup l
       ∧ (∀ cid c, (cid, c) ∈ l ↔
            consultation (db w) !! cid = Some c ∧ Consultation.responder_id c = None)
       ∧ (∀ w0 req0 author a,
            _get_user w0 = Some (author, a) →
            method req0 = POST → csrf_valid req0 = true → blank (data "body" req0) = false →
            db w = db (dispatch_request Endpoint.consultation_request req0 w0).2 →
            ∃ c, (next_id (consultation (db w0)), c) ∈ l)
       ∧ (∀ w0 req0 did doc cid,
            _get_user w0 = Some (did, doc) → User.role doc = Some "doctor" →
            is_Some (consultation (db w0) !! cid) →
            db w = db (dispatch_request (Endpoint.chat cid) req0 w0).2 →
            ∀ c, (cid, c) ∉ l))
  ∧ (User.role u ≠ Some "doctor" → out = (redirect (url_for "index" []), w)).
Proof.
  intros Hu Hget. cbv zeta. rewrite (dispatch_consultations _ _ _ _ Hu Hget). split.
  - intros Hrole. rewrite (bool_decide_eq_false_2 (User.role u ≠ Some "doctor")) by tauto.
    eexists; split; [done|]. split; [|split; [|split]].
    + unfold filter_by_all, rows.
      apply NoDup_ListNoDup, List.NoDup_filter, NoDup_ListNoDup, NoDup_map_to_list.
    + intros cid c. rewrite elem_of_filter_by_all.
      split; intros [Hc Hopen]; (split; [done|]).
      * by apply bool_decide_eq_true_1 in Hopen.
      * by apply bool_decide_eq_true_2.
    + intros w0 req0 author a Hu0 Hpost Hcsrf Hbody Hdb.
      unfold dispatch_request, view_function in Hdb.
      rewrite consultation_request_methods, (consultation_request_run _ _ _ _ Hu0) in Hdb.
      rewrite (proj2 (validate_on_submit_true _ _ _)) in Hdb.
      2:{ split; [done|]. by apply ConsultationForm_errors_nil. }
      reduce_in Hdb. rewrite Hdb. reduce.
      eexists. apply elem_of_filter_by_all. split; [apply lookup_insert_eq|done].
    + intros w0 req0 did doc cid Hu0 Hdoc [c0 Hc0] Hdb c Hin.
      apply elem_of_filter_by_all in Hin as [Hc Hopen].
      apply bool_decide_eq_true_1 in Hopen.
      destruct (chat_claims_for_doctor cid req0 w0 did doc c0 Hu0 Hdoc Hc0)
        as (c' & r & Hc' & Hr).
      rewrite <- Hdb in Hc'. congruence.
  - intros Hrole. by rewrite (bool_decide_eq_true_2 _ Hrole).
Qed.

(** ** Logging in *)

Lemma LoginForm_errors_nil d req :
  errors LoginForm d req = [] ↔
  csrf_valid req = true
  ∧ blank (data "username" req) = false ∧ blank (data "password" req) = false.
Proof.
  rewrite errors_nil, <- Forall_forall. unfold LoginForm.
  rewrite !Forall_cons, Forall_nil. cbn [fst snd].
  rewrite !chain_cons_nil, !DataRequired_Passed, !blank_false. cbn [_run_validation_chain].
  split; [by intros (? & (? & _) & (? & _) & _)|by intros (? & ? & ?)].
Qed.

Lemma url_parse_unbound : bool_decide ("url_parse" ∈ module_names) = false.
Proof. by vm_compute. Qed.

(** What [login] does once the form validates, the user is found and the
    password checks. *)
Lemma login_run_success req w uid u h p :
  _get_user w = None →
  validate_on_submit LoginForm (db w) req = true →
  filter_by_first (λ r, bool_decide (User.username r = data "username" req)) (user (db w))
    = Some (uid, u) →
  User.password_hash u = Some h →
  data "password" req = Some p →
  check_password_hash h p = true →
  login req w =
    let w' := mkWorld (db w) (mkSession (Some uid) (checked "remember_me" req)) (flashes w) in
    match get "next" (args req) with
    | Some (String c rest) => (Raise (NameError "url_parse"), w')
    | _ => (Return (redirect (url_for "index" [])), w')
    end.
Proof.
  intros Hu Hval Hfound Hh Hp Hcheck. unfold login. run.
  rewrite Hu. reduce. rewrite Hval, Hfound. reduce. rewrite Hh, Hp. reduce.
  rewrite Hcheck. cbn [negb]. reduce.
  destruct (get "next" (args req)) as [[|c rest]|]; reduce; [done| |done].
  cbn [truthy negb]. by rewrite url_parse_unbound.
Qed.

Lemma login_methods req :
  existsb (Method_eqb (method req)) (methods Endpoint.login) = true.
Proof. by destruct (method req). Qed.

(** C7 (what the code does).  A visitor who is not logged in posts the
    login form with a valid token, a username the user table finds and the
    matching password.  When the query string carries no [next], or an
    empty one, the response redirects to the home page.  When it carries a
    non-empty [next] (the path a protected route preserved), the view
    looks up the name [url_parse], which the module never binds: the
    request ends in a [NameError], not in a redirect to that path. *)
Theorem login_next_raises_NameError (req : Request) (w : World)
    (uid : nat) (u : User.t) (h p : string) :
  _get_user w = None →
  method req = POST →
  csrf_valid req = true →
  blank (data "username" req) = false →
  filter_by_first (λ r, bool_decide (User.username r = data "username" req)) (user (db w))
    = Some (uid, u) →
  User.password_hash u = Some h →
  data "password" req = Some p →
  blank (Some p) = false →
  check_password_hash h p = true →
  let out := dispatch_request Endpoint.login req w in
  (get "next" (args req) = None ∨ get "next" (args req) = Some "" →
     out.1 = redirect (url_for "index" []))
  ∧ (∀ target, get "next" (args req) = Some target → target ≠ "" →
       out.1 = error_response (NameError "url_parse")
       ∧ out.1 ≠ redirect (url target)).
Proof.
  intros Hu Hpost Hcsrf Hname Hfound Hh Hp Hpb Hcheck. cbv zeta.
  assert (validate_on_submit LoginForm (db w) req = true) as Hval.
  { apply validate_on_submit_true. split; [done|].
    apply LoginForm_errors_nil. by rewrite Hp. }
  unfold dispatch_request, view_function.
  rewrite login_methods, (login_run_success _ _ _ _ _ _ Hu Hval Hfound Hh Hp Hcheck).
  cbv zeta. split.
  - by intros [-> | ->].
  - intros target -> Hne. by destruct target.
Qed.

(** ** Access control *)

Lemma existsb_methods (m : Method) (ms : list Method) :
  m ∈ ms → existsb (Method_eqb m) ms = true.
Proof.
  intros Hin. apply existsb_exists. exists m. split.
  - by apply list_elem_of_In.
  - by destruct m.
Qed.

(** C9 (as amended).  For a request without a logged-in user, using a
    method the route accepts: every session route other than [/logout]
    answers with a redirect to the login page that carries the requested
    path as [next], and leaves database and session as they were (a
    "please log in" message is flashed); [/logout] has no such check: it
    runs [logout_user], after which the session is anonymous, and redirects
    to the home page. *)
Theorem session_routes_without_user (e : Endpoint.t) (req : Request) (w : World) :
  session_required e = true →
  method req ∈ methods e →
  _get_user w = None →
  let out := dispatch_request e req w in
  (e ≠ Endpoint.logout →
     out = (redirect (url_for "login" [("next", path req)]),
            mkWorld (db w) (session w)
                    (flashes w ++ ["Please log in to access this page."])))
  ∧ (e = Endpoint.logout →
     out = (redirect (url_for "index" []), mkWorld (db w) anonymous (flashes w))).
Proof.
  intros Hreq Hm Hu. cbv zeta. unfold dispatch_request.
  rewrite (existsb_methods _ _ Hm). split.
  - intros Hne. destruct e; try done; unfold view_function;
      [unfold index|unfold profile|unfold consultation_request
      |unfold consultations|unfold chat];
      by rewrite (login_required_anonymous _ _ _ Hu).
  - by intros ->.
Qed.

(** ** Every request is a database step *)

Lemma _get_user_stored w uid u : _get_user w = Some (uid, u) → user (db w) !! uid = Some u.
Proof.
  unfold _get_user, load_user. destruct (_user_id (session w)) as [i|]; [|done]. simpl.
  destruct (user (db w) !! i) as [a|] eqn:E; [|done]. simpl. by intros [= <- <-].
Qed.

Lemma chat_db_step cid req w : db_step (db w) (db (chat cid req w).2).
Proof.
  destruct (_get_user w) as [[uid u]|] eqn:Hu.
  - rewrite (chat_run _ _ _ _ _ Hu).
    destruct (consultation (db w) !! cid) as [c|] eqn:Hc; [|apply step_none].
    reduce. apply (step_chat _ uid u cid c); [by apply _get_user_stored|done|..].
    + destruct (bool_decide _ && bool_decide _); by destruct (method req).
    + destruct (bool_decide _ && bool_decide _); by destruct (method req).
    + destruct (bool_decide _ && bool_decide _); by destruct (method req).
    + destruct (bool_decide (User.role u = Some "doctor")) eqn:Hrole;
        [apply bool_decide_eq_true_1 in Hrole|left; by destruct (method req)].
      destruct (bool_decide (Consultation.responder_id c = None)) eqn:Hopen;
        [apply bool_decide_eq_true_1 in Hopen|left; by destruct (method req)].
      right. repeat split; [done| |done]. by destruct (method req).
  - unfold chat. rewrite login_required_anonymous by done. apply step_none.
Qed.

Lemma consultation_request_db_step req w : db_step (db w) (db (consultation_request req w).2).
Proof.
  destruct (_get_user w) as [[uid u]|] eqn:Hu.
  - rewrite (consultation_request_run _ _ _ _ Hu).
    destruct (validate_on_submit _ _ _); [|apply step_none].
    reduce. apply (step_submit _ uid u). by apply _get_user_stored.
  - unfold consultation_request. rewrite login_required_anonymous by done. apply step_none.
Qed.

Lemma register_db_step req w : db_step (db w) (db (register req w).2).
Proof.
  destruct (_get_user w) as [p|] eqn:Hu.
  - rewrite (register_authenticated _ _ _ Hu). apply step_none.
  - rewrite (register_run _ _ Hu).
    destruct (validate_on_submit _ _ _); [|apply step_none].
    destruct (data "password" req); [|apply step_none].
    cbv zeta.
    match goal with |- context [violates_unique ?u ?t] =>
      destruct (violates_unique u t) eqn:Hunique end; [apply step_none|].
    reduce. by apply step_register.
Qed.

Lemma db_step_same d d' : d' = d → db_step d d'.
Proof. intros ->. apply step_none. Qed.

Lemma dispatch_db_step e req w : db_step (db w) (db (dispatch_request e req w).2).
Proof.
  unfold dispatch_request. destruct (existsb _ _); [|apply step_none].
  assert (db_step (db w) (db (view_function e req w).2)) as Hview.
  { destruct e; unfold view_function.
    - apply db_step_same, index_db.
    - apply db_step_same, login_db.
    - apply db_step_same, logout_db.
    - apply register_db_step.
    - apply db_step_same, profile_db.
    - apply consultation_request_db_step.
    - apply db_step_same, consultations_db.
    - apply chat_db_step. }
  by destruct (view_function e req w) as [[resp|exc] w'].
Qed.

Lemma serve_all_invariant (P : DB → Prop) :
  (∀ d d', P d → db_step d d' → P d') →
  ∀ xs d, P d → P (serve_all d xs).
Proof.
  intros Hstep xs. induction xs as [|x xs IH]; intros d Hd; [done|].
  simpl. apply IH. apply (Hstep d); [done|].
  apply (dispatch_db_step (endpoint x) (request x) (mkWorld d (cookie x) [])).
Qed.

Lemma serve_all_preorder (R : DB → DB → Prop) :
  (∀ d, R d d) →
  (∀ d1 d2 d3, R d1 d2 → R d2 d3 → R d1 d3) →
  (∀ d d', db_step d d' → R d d') →
  ∀ xs d, R d (serve_all d xs).
Proof.
  intros Hrefl Htrans Hstep xs. induction xs as [|x xs IH]; intros d; [apply Hrefl|].
  simpl. eapply Htrans; [|apply IH]. apply Hstep.
  apply (dispatch_db_step (endpoint x) (request x) (mkWorld d (cookie x) [])).
Qed.

(** ** Invariants of the database *)

Lemma violates_unique_false u (table : gmap nat User.t) :
  violates_unique u table = false →
  ∀ j v, table !! j = Some v →
    (User.username u ≠ None → User.username v ≠ User.username u)
    ∧ (User.email u ≠ None → User.email v ≠ User.email u).
Proof.
  unfold violates_unique. intros Hv j v Hj.
  apply orb_false_iff in Hv as [Hname Hmail]. split.
  - intros Hsome. rewrite (bool_decide_eq_true_2 _ Hsome) in Hname. cbn [andb] in Hname.
    destruct (filter_by_all _ table) eqn:E in Hname; [|done].
    pose proof (proj1 (filter_by_all_nil _ table) E j v Hj) as Hb.
    by apply bool_decide_eq_false_1 in Hb.
  - intros Hsome. rewrite (bool_decide_eq_true_2 _ Hsome) in Hmail. cbn [andb] in Hmail.
    destruct (filter_by_all _ table) eqn:E in Hmail; [|done].
    pose proof (proj1 (filter_by_all_nil _ table) E j v Hj) as Hb.
    by apply bool_decide_eq_false_1 in Hb.
Qed.

Lemma stored_not_next {A} (table : gmap nat A) i x : table !! i = Some x → i ≠ next_id table.
Proof. intros Hi ->. by rewrite next_id_fresh in Hi. Qed.

Lemma db_step_keeps_users d d' : db_step d d' → keeps_users d d'.
Proof.
  intros Hstep i u Hi. destruct Hstep; try done.
  reduce. rewrite lookup_insert_ne; [done|]. intros E. by apply (stored_not_next _ _ _ Hi).
Qed.

(** X1.  User rows are never changed or removed: whatever requests are
    served, by whatever sessions, a stored user is still stored under the
    same id with the same username, e-mail, password hash and role. *)
Theorem users_are_never_changed (d : DB) (xs : list Exchange) (i : nat) (u : User.t) :
  user d !! i = Some u → user (serve_all d xs) !! i = Some u.
Proof.
  revert i u. change (keeps_users d (serve_all d xs)). revert xs d.
  apply serve_all_preorder.
  - by intros d i u.
  - intros d1 d2 d3 H12 H23 i u Hi. by apply H23, H12.
  - apply db_step_keeps_users.
Qed.

Lemma db_step_unique_users d d' : unique_users d → db_step d d' → unique_users d'.
Proof.
  intros Huniq Hstep. destruct Hstep as [|u Hfree| |]; try done.
  intros i j a b Hi Hj Hsame. reduce_in Hi. reduce_in Hj.
  destruct (decide (i = next_id (user d))) as [->|Hi'],
           (decide (j = next_id (user d))) as [->|Hj']; [done|..].
  - rewrite lookup_insert_eq in Hi. rewrite lookup_insert_ne in Hj by done.
    injection Hi as <-. destruct (violates_unique_false _ _ Hfree _ _ Hj) as [Hn Hm].
    destruct Hsame as [[Hs He]|[Hs He]]; [by destruct (Hn Hs)|by destruct (Hm Hs)].
  - rewrite lookup_insert_eq in Hj. rewrite lookup_insert_ne in Hi by done.
    injection Hj as <-. destruct (violates_unique_false _ _ Hfree _ _ Hi) as [Hn Hm].
    destruct Hsame as [[Hs He]|[Hs He]].
    + destruct Hn; [congruence|done].
    + destruct Hm; [congruence|done].
  - rewrite lookup_insert_ne in Hi by done. rewrite lookup_insert_ne in Hj by done.
    by apply (Huniq i j a b).
Qed.

(** X2.  Usernames and e-mails stay unique: if no two stored users share a
    (non-null) username or e-mail, then after any sequence of requests,
    registrations included, still no two do. *)
Theorem usernames_and_emails_stay_unique (d : DB) (xs : list Exchange) :
  unique_users d → unique_users (serve_all d xs).
Proof. revert xs d. apply serve_all_invariant, db_step_unique_users. Qed.

Lemma db_step_keeps_requests d d' : db_step d d' → keeps_requests d d'.
Proof.
  intros Hstep cid0 c0 Hc0.
  destruct Hstep as [| | |uid a cid c c' Ha Hc Hb Ht Hu Hr]; reduce; eauto.
  - rewrite lookup_insert_ne; [eauto|]. intros E. by apply (stored_not_next _ _ _ Hc0).
  - destruct (decide (cid = cid0)) as [->|Hne].
    + rewrite lookup_insert_eq. assert (c0 = c) as -> by congruence. eauto.
    + rewrite lookup_insert_ne by done. eauto.
Qed.

(** X3.  Consultations are never removed and what was asked is never
    rewritten: after any sequence of requests a stored consultation is
    still stored under its id with the body, timestamp and requester it
    had (only responder and response can differ). *)
Theorem consultations_keep_their_request (d : DB) (xs : list Exchange)
    (cid : nat) (c : Consultation.t) :
  consultation d !! cid = Some c →
  ∃ c', consultation (serve_all d xs) !! cid = Some c'
    ∧ Consultation.body c' = Consultation.body c
    ∧ Consultation.timestamp c' = Consultation.timestamp c
    ∧ Consultation.user_id c' = Consultation.user_id c.
Proof.
  revert cid c. change (keeps_requests d (serve_all d xs)). revert xs d.
  apply serve_all_preorder.
  - intros d cid c Hc. eauto.
  - intros d1 d2 d3 H12 H23 cid c Hc.
    destruct (H12 _ _ Hc) as (c2 & Hc2 & Hb2 & Ht2 & Hu2).
    destruct (H23 _ _ Hc2) as (c3 & Hc3 & Hb3 & Ht3 & Hu3).
    exists c3. repeat split; congruence.
  - apply db_step_keeps_requests.
Qed.

Lemma db_step_responders_are_doctors d d' :
  responders_are_doctors d → db_step d d' → responders_are_doctors d'.
Proof.
  intros Hinv Hstep.
  destruct Hstep as [|u Hfree|uid a body now Ha|uid a cid c c' Ha Hc Hb Ht Hu Hr]; [done|..];
    intros cid0 c0 r Hc0 Hr0; reduce_in Hc0; reduce.
  - destruct (Hinv _ _ _ Hc0 Hr0) as (doc & Hdoc & Hrole). exists doc. split; [|done].
    rewrite lookup_insert_ne; [done|]. intros E. by apply (stored_not_next _ _ _ Hdoc).
  - destruct (decide (next_id (consultation d) = cid0)) as [<-|Hne].
    + rewrite lookup_insert_eq in Hc0. by injection Hc0 as <-.
    + rewrite lookup_insert_ne in Hc0 by done. by apply (Hinv _ _ _ Hc0 Hr0).
  - destruct (decide (cid = cid0)) as [<-|Hne].
    + rewrite lookup_insert_eq in Hc0. injection Hc0 as <-.
      destruct Hr as [Hkept|(Hopen & Hclaimed & Hrole)].
      * apply (Hinv cid c r Hc). congruence.
      * exists a. split; [congruence|done].
    + rewrite lookup_insert_ne in Hc0 by done. by apply (Hinv _ _ _ Hc0 Hr0).
Qed.

(** X4.  Only doctors become responders: if every responder recorded so
    far is a stored user with role "doctor", the same holds after any
    sequence of requests. *)
Theorem responders_stay_doctors (d : DB) (xs : list Exchange) :
  responders_are_doctors d → responders_are_doctors (serve_all d xs).
Proof. revert xs d. apply serve_all_invariant, db_step_responders_are_doctors. Qed.

Lemma db_step_requesters_exist d d' :
  requesters_exist d → db_step d d' → requesters_exist d'.
Proof.
  intros Hinv Hstep.
  destruct Hstep as [|u Hfree|uid a body now Ha|uid a cid c c' Ha Hc Hb Ht Hu Hr]; [done|..];
    intros cid0 c0 Hc0; reduce_in Hc0; reduce.
  - destruct (Hinv _ _ Hc0) as (rid & req & Hrid & Hreq). exists rid, req. split; [done|].
    rewrite lookup_insert_ne; [done|]. intros E. by apply (stored_not_next _ _ _ Hreq).
  - destruct (decide (next_id (consultation d) = cid0)) as [<-|Hne].
    + rewrite lookup_insert_eq in Hc0. injection Hc0 as <-. by exists uid, a.
    + rewrite lookup_insert_ne in Hc0 by done. by apply (Hinv _ _ Hc0).
  - destruct (decide (cid = cid0)) as [<-|Hne].
    + rewrite lookup_insert_eq in Hc0. injection Hc0 as <-.
      destruct (Hinv _ _ Hc) as (rid & req & Hrid & Hreq). exists rid, req.
      split; [congruence|done].
    + rewrite lookup_insert_ne in Hc0 by done. by apply (Hinv _ _ Hc0).
Qed.

(** X5.  Every consultation has a stored requester: if each stored
    consultation names a stored user as requester, the same holds after
    any sequence of requests. *)
Theorem requesters_stay_stored (d : DB) (xs : list Exchange) :
  requesters_exist d → requesters_exist (serve_all d xs).
Proof. revert xs d. apply serve_all_invariant, db_step_requesters_exist. Qed.

(** ** Logging in and out *)

(** What [login] does for a visitor who is not logged in. *)
Lemma login_run req w :
  _get_user w = None →
  login req w =
    let invalid :=
      (Return (redirect (url_for "login" [])),
       mkWorld (db w) (session w) (flashes w ++ ["Invalid username or password"])) in
    if validate_on_submit LoginForm (db w) req then
      match filter_by_first (λ r, bool_decide (User.username r = data "username" req))
              (user (db w)) with
      | None => invalid
      | Some (uid, u) =>
          match User.password_hash u, data "password" req with
          | Some h, Some p =>
              if check_password_hash h p then
                let w' := mkWorld (db w) (mkSession (Some uid) (checked "remember_me" req))
                                  (flashes w) in
                match get "next" (args req) with
                | Some (String c rest) => (Raise (NameError "url_parse"), w')
                | _ => (Return (redirect (url_for "index" [])), w')
                end
              else invalid
          | _, _ => (Raise TypeError, w)
          end
      end
    else
      (Return (render_template "login.html"
                 (with_form "Sign In" (shown_errors LoginForm (db w) req))), w).
Proof.
  intros Hu. unfold login. run. rewrite Hu. reduce.
  destruct (validate_on_submit LoginForm (db w) req); reduce; [|done].
  destruct (filter_by_first _ _) as [[uid u]|]; reduce; [|done].
  destruct (User.password_hash u) as [h|]; [|done].
  destruct (data "password" req) as [p|]; reduce; [|done].
  destruct (check_password_hash h p); cbn [negb]; reduce; [|done].
  destruct (get "next" (args req)) as [[|c rest]|]; reduce; [done| |done].
  cbn [truthy negb]. by rewrite url_parse_unbound.
Qed.

Lemma login_authenticated req w p :
  _get_user w = Some p → login req w = (Return (redirect (url_for "index" [])), w).
Proof. intros Hu. unfold login. run. by rewrite Hu. Qed.

Lemma filter_by_first_found {A} (p : A → bool) (table : gmap nat A) i x :
  filter_by_first p table = Some (i, x) → table !! i = Some x ∧ p x = true.
Proof.
  unfold filter_by_first. intros Hh. apply elem_of_filter_by_all.
  destruct (filter_by_all p table); simplify_eq/=. left.
Qed.


(** X6.  A failed login tells nothing apart: for a visitor who posts a
    valid login form, an unknown username and a known username with a
    password that does not check give the very same result, a redirect to
    the login page with the one message "Invalid username or password"
    flashed, the session and the database left as they were. *)
Theorem login_failures_look_alike (req : Request) (w : World) :
  _get_user w = None →
  validate_on_submit LoginForm (db w) req = true →
  let failed :=
    (redirect (url_for "login" []),
     mkWorld (db w) (session w) (flashes w ++ ["Invalid username or password"])) in
  ((∀ i u, user (db w) !! i = Some u → User.username u ≠ data "username" req) →
     dispatch_request Endpoint.login req w = failed)
  ∧ (∀ uid u h p,
       filter_by_first (λ r, bool_decide (User.username r = data "username" req))
         (user (db w)) = Some (uid, u) →
       User.password_hash u = Some h → data "password" req = Some p →
       check_password_hash h p = false →
       dispatch_request Endpoint.login req w = failed).
Proof.
  intros Hu Hval. cbv zeta. unfold dispatch_request, view_function.
  rewrite login_methods, (login_run _ _ Hu), Hval. cbv zeta. split.
  - intros Hunknown.
    rewrite (proj2 (filter_by_first_None _ (user (db w)))); [done|].
    intros i u Hi. apply bool_decide_eq_false_2. eauto.
  - intros uid u h p -> -> -> ->. done.
Qed.

(** X7.  Logging in authenticates only on a password that checks: if a
    request to [/login] leaves the session different from what it was,
    then the session was anonymous, the new session names a stored user
    whose username is the submitted one, and [check_password_hash]
    accepted the submitted password against that user's stored hash. *)
Theorem login_needs_matching_password (req : Request) (w : World) :
  let out := dispatch_request Endpoint.login req w in
  session out.2 ≠ session w →
  ∃ uid u h p,
    user (db w) !! uid = Some u
    ∧ User.username u = data "username" req
    ∧ User.password_hash u = Some h
    ∧ data "password" req = Some p
    ∧ check_password_hash h p = true
    ∧ session out.2 = mkSession (Some uid) (checked "remember_me" req).
Proof.
  cbv zeta. unfold dispatch_request, view_function. rewrite login_methods.
  destruct (_get_user w) as [cu|] eqn:Hu.
  - by rewrite (login_authenticated _ _ _ Hu).
  - rewrite (login_run _ _ Hu). cbv zeta.
    destruct (validate_on_submit LoginForm (db w) req); [|done].
    destruct (filter_by_first _ _) as [[uid u]|] eqn:Hfound; [|done].
    destruct (filter_by_first_found _ _ _ _ Hfound) as [Hstored Hname].
    apply bool_decide_eq_true_1 in Hname.
    destruct (User.password_hash u) as [h|] eqn:Hh; [|done].
    destruct (data "password" req) as [p|] eqn:Hp; [|done].
    destruct (check_password_hash h p) eqn:Hcheck; [|done].
    intros _. exists uid, u, h, p. repeat split; try done.
    by destruct (get "next" (args req)) as [[|c rest]|].
Qed.

(** X8.  A successful login opens the session: after a visitor logs in
    (valid form, user found, password checks, no [next] in the query
    string) the response redirects home, the session is that user's, and a
    following request to [/profile] shows that user's row. *)
Theorem login_then_profile (req next : Request) (w : World)
    (uid : nat) (u : User.t) (h p : string) :
  _get_user w = None →
  validate_on_submit LoginForm (db w) req = true →
  filter_by_first (λ r, bool_decide (User.username r = data "username" req)) (user (db w))
    = Some (uid, u) →
  User.password_hash u = Some h →
  data "password" req = Some p →
  check_password_hash h p = true →
  get "next" (args req) = None →
  method next = GET →
  let out := dispatch_request Endpoint.login req w in
  out.1 = redirect (url_for "index" [])
  ∧ _get_user out.2 = Some (uid, u)
  ∧ (dispatch_request Endpoint.profile next out.2).1
    = render_template "profile.html" (with_user "Profile" (Some (uid, u))).
Proof.
  intros Hu Hval Hfound Hh Hp Hcheck Hnext Hget. cbv zeta.
  assert (dispatch_request Endpoint.login req w
          = (redirect (url_for "index" []),
             mkWorld (db w) (mkSession (Some uid) (checked "remember_me" req)) (flashes w)))
    as ->.
  { unfold dispatch_request, view_function.
    by rewrite login_methods,
         (login_run_success _ _ _ _ _ _ Hu Hval Hfound Hh Hp Hcheck), Hnext. }
  destruct (filter_by_first_found _ _ _ _ Hfound) as [Hstored _].
  assert (_get_user (mkWorld (db w) (mkSession (Some uid) (checked "remember_me" req))
                       (flashes w)) = Some (uid, u)) as Hin.
  { unfold _get_user, load_user. simpl. by rewrite Hstored. }
  reduce. split; [done|]. split; [done|].
  unfold dispatch_request, view_function. rewrite Hget. cbn [methods existsb Method_eqb orb].
  unfold profile. run. rewrite Hin. reduce. by rewrite Hin.
Qed.


Lemma protected_view_anonymous e req w :
  session_required e = true → e ≠ Endpoint.logout → _get_user w = None →
  view_function e req w =
    (Return (redirect (url_for "login" [("next", path req)])),
     mkWorld (db w) (session w) (flashes w ++ ["Please log in to access this page."])).
Proof.
  intros Hreq Hne Hu. destruct e; try done; unfold view_function;
    [unfold index|unfold profile|unfold consultation_request
    |unfold consultations|unfold chat];
    by rewrite (login_required_anonymous _ _ _ Hu).
Qed.

(** X10.  Logging out ends the session, whoever asks: after a GET to
    [/logout] the database is as it was, the session is anonymous, and the
    next request to any other session route is answered with a redirect to
    the login page. *)
Theorem logout_ends_the_session (e : Endpoint.t) (req next : Request) (w : World) :
  method req = GET →
  session_required e = true → e ≠ Endpoint.logout → method next ∈ methods e →
  let out := dispatch_request Endpoint.logout req w in
  out.1 = redirect (url_for "index" [])
  ∧ db out.2 = db w
  ∧ session out.2 = anonymous
  ∧ (dispatch_request e next out.2).1 = redirect (url_for "login" [("next", path next)]).
Proof.
  intros Hget Hreq Hne Hm. cbv zeta.
  assert (dispatch_request Endpoint.logout req w
          = (redirect (url_for "index" []), mkWorld (db w) anonymous (flashes w))) as ->.
  { unfold dispatch_request. by rewrite Hget. }
  reduce. repeat split.
  unfold dispatch_request. rewrite (existsb_methods _ _ Hm).
  by rewrite protected_view_anonymous.
Qed.

Lemma chat_session cid req w : session (chat cid req w).2 = session w.
Proof.
  destruct (_get_user w) as [[uid u]|] eqn:Hu.
  - rewrite (chat_run _ _ _ _ _ Hu). by destruct (consultation (db w) !! cid).
  - unfold chat. by rewrite login_required_anonymous.
Qed.

Lemma consultation_request_session req w : session (consultation_request req w).2 = session w.
Proof.
  destruct (_get_user w) as [[uid u]|] eqn:Hu.
  - rewrite (consultation_request_run _ _ _ _ Hu). by destruct (validate_on_submit _ _ _).
  - unfold consultation_request. by rewrite login_required_anonymous.
Qed.

Lemma register_session req w : session (register req w).2 = session w.
Proof.
  destruct (_get_user w) as [p|] eqn:Hu.
  - by rewrite (register_authenticated _ _ _ Hu).
  - rewrite (register_run _ _ Hu).
    destruct (validate_on_submit _ _ _); [|done].
    destruct (data "password" req); [|done].
    cbv zeta. by destruct (violates_unique _ _).
Qed.

Lemma consultations_session req w : session (consultations req w).2 = session w.
Proof.
  destruct (_get_user w) as [[uid u]|] eqn:Hu.
  - rewrite (consultations_run _ _ _ _ Hu). by case_bool_decide.
  - unfold consultations. by rewrite login_required_anonymous.
Qed.

Lemma index_session req w : session (index req w).2 = session w.
Proof. unfold index. run. by destruct (_get_user w). Qed.

Lemma profile_session req w : session (profile req w).2 = session w.
Proof. unfold profile. run. by destruct (_get_user w). Qed.

(** X11.  Only [/login] and [/logout] touch the session: a request to any
    other route, whatever its method, form and outcome, leaves the session
    exactly as it was; in particular registering does not log in. *)
Theorem only_login_and_logout_touch_the_session (e : Endpoint.t) (req : Request) (w : World) :
  e ≠ Endpoint.login → e ≠ Endpoint.logout →
  session (dispatch_request e req w).2 = session w.
Proof.
  intros Hlogin Hlogout. unfold dispatch_request. destruct (existsb _ _); [|done].
  assert (session (view_function e req w).2 = session w) as Hview.
  { destruct e; try done; unfold view_function.
    - apply index_session.
    - apply register_session.
    - apply profile_session.
    - apply consultation_request_session.
    - apply consultations_session.
    - apply chat_session. }
  by destruct (view_function e req w) as [[resp|exc] w'].
Qed.

(** ** The workflow end to end *)

Lemma _get_user_same w w' :
  user (db w') = user (db w) → session w' = session w → _get_user w' = _get_user w.
Proof. unfold _get_user, load_user. by intros -> ->. Qed.

Lemma serve_consultation_request d s req uid u :
  _get_user (mkWorld d s []) = Some (uid, u) →
  method req = POST → csrf_valid req = true → blank (data "body" req) = false →
  serve d (mkExchange s Endpoint.consultation_request req)
  = mkDB (user d)
      (<[next_id (consultation d) :=
           Consultation.mk (data "body" req) (Some (utcnow req)) (Some uid) None None]>
         (consultation d)).
Proof.
  intros Hu Hpost Hcsrf Hbody. unfold serve, dispatch_request, view_function. cbn [endpoint request cookie].
  rewrite consultation_request_methods, (consultation_request_run _ _ _ _ Hu).
  rewrite (proj2 (validate_on_submit_true _ _ _)); [done|].
  split; [done|]. by apply ConsultationForm_errors_nil.
Qed.

Lemma serve_chat d s cid req uid u c :
  _get_user (mkWorld d s []) = Some (uid, u) →
  consultation d !! cid = Some c →
  serve d (mkExchange s (Endpoint.chat cid) req)
  = mkDB (user d)
      (<[cid :=
           let c1 :=
             if bool_decide (User.role u = Some "doctor")
                && bool_decide (Consultation.responder_id c = None)
             then Consultation.set_responder_id (Some uid) c else c in
           match method req with
           | POST => Consultation.set_response (get "response" (form req)) c1
           | GET => c1
           end]> (consultation d)).
Proof.
  intros Hu Hc. unfold serve, dispatch_request, view_function. cbn [endpoint request cookie].
  rewrite chat_methods, (chat_run _ _ _ _ _ Hu). reduce. by rewrite Hc.
Qed.

(** X12.  Submit, claim, respond: a logged-in user submits a consultation
    (valid, non-blank), a doctor opens its chat with a GET and then posts a
    response there.  Served in that order, the three requests leave the
    consultation stored under the id it was given with the submitted body,
    the submission's timestamp, the submitter as requester, the doctor as
    responder and the posted text as response. *)
Theorem submit_claim_respond (d : DB) (sa sb : Session) (aid bid : nat) (a b : User.t)
    (submit open respond : Request) (text : string) :
  _get_user (mkWorld d sa []) = Some (aid, a) →
  _get_user (mkWorld d sb []) = Some (bid, b) →
  User.role b = Some "doctor" →
  method submit = POST → csrf_valid submit = true → blank (data "body" submit) = false →
  method open = GET →
  method respond = POST → get "response" (form respond) = Some text →
  let cid := next_id (consultation d) in
  consultation
    (serve_all d [mkExchange sa Endpoint.consultation_request submit;
                  mkExchange sb (Endpoint.chat cid) open;
                  mkExchange sb (Endpoint.chat cid) respond]) !! cid
  = Some (Consultation.mk (data "body" submit) (Some (utcnow submit))
            (Some aid) (Some bid) (Some text)).
Proof.
  intros Ha Hb Hdoc Hpost Hcsrf Hbody Hget Hpost' Htext. cbv zeta.
  unfold serve_all. cbn [fold_left].
  rewrite (serve_consultation_request _ _ _ _ _ Ha Hpost Hcsrf Hbody).
  set (cid := next_id (consultation d)).
  set (c0 := Consultation.mk _ _ _ None None).
  erewrite (serve_chat _ sb cid open bid b c0); [|exact Hb|apply lookup_insert_eq].
  rewrite Hget, (bool_decide_eq_true_2 _ Hdoc). cbn [andb]. reduce.
  rewrite (bool_decide_eq_true_2 (Consultation.responder_id c0 = None)) by done.
  rewrite insert_insert_eq.
  erewrite (serve_chat _ sb cid respond bid b); [|exact Hb|apply lookup_insert_eq].
  rewrite Hpost', Htext. reduce. rewrite lookup_insert_eq.
  by rewrite andb_false_r.
Qed.

(** X13.  A reply does not claim: when a logged-in user who is not a
    doctor posts a response to an open consultation, the text is stored
    but the responder stays null, so the consultation, although answered,
    is still on the page a doctor gets from [/consultations]. *)
Theorem reply_without_claim_stays_in_queue (cid : nat) (req listing : Request) (w wd : World)
    (uid did : nat) (u doc : User.t) (c : Consultation.t) (text : string) :
  _get_user w = Some (uid, u) → User.role u ≠ Some "doctor" →
  consultation (db w) !! cid = Some c → Consultation.responder_id c = None →
  method req = POST → get "response" (form req) = Some text →
  let out := dispatch_request (Endpoint.chat cid) req w in
  db wd = db out.2 → _get_user wd = Some (did, doc) → User.role doc = Some "doctor" →
  method listing = GET →
  consultation (db out.2) !! cid = Some (Consultation.set_response (Some text) c)
  ∧ ∃ l, (dispatch_request Endpoint.consultations listing wd).1
         = render_template "consultations.html" (with_consultations "Consultations" l)
         ∧ (cid, Consultation.set_response (Some text) c) ∈ l.
Proof.
  intros Hu Hrole Hc Hopen Hpost Htext. cbv zeta.
  assert (db (dispatch_request (Endpoint.chat cid) req w).2
          = mkDB (user (db w))
              (<[cid := Consultation.set_response (Some text) c]> (consultation (db w))))
    as ->.
  { unfold dispatch_request, view_function.
    rewrite chat_methods, (chat_run _ _ _ _ _ Hu), Hc, Hpost, Htext. reduce.
    by rewrite (bool_decide_eq_false_2 _ Hrole). }
  intros Hdb Hdoc Hdrole Hget. reduce. split; [apply lookup_insert_eq|].
  rewrite (dispatch_consultations _ _ _ _ Hdoc Hget).
  rewrite (bool_decide_eq_false_2 (User.role doc ≠ Some "doctor")) by tauto.
  eexists. split; [done|]. apply elem_of_filter_by_all. rewrite Hdb. reduce.
  split; [apply lookup_insert_eq|]. by apply bool_decide_eq_true_2.
Qed.

(** X14.  GET requests do not write, with one exception: whatever the
    route and the session, a GET leaves the database as it was, unless it
    is a doctor opening the chat of a consultation whose responder is
    null, in which case the only change is that this consultation's
    responder becomes the doctor. *)
Theorem get_writes_only_the_claim (e : Endpoint.t) (req : Request) (w : World) :
  method req = GET →
  let out := dispatch_request e req w in
  db out.2 = db w
  ∨ ∃ cid uid u c,
      e = Endpoint.chat cid ∧ _get_user w = Some (uid, u)
      ∧ User.role u = Some "doctor"
      ∧ consultation (db w) !! cid = Some c ∧ Consultation.responder_id c = None
      ∧ db out.2 = mkDB (user (db w))
                     (<[cid := Consultation.set_responder_id (Some uid) c]>
                        (consultation (db w))).
Proof.
  intros Hget. cbv zeta. unfold dispatch_request.
  destruct (existsb _ _); [|by left].
  assert (validate_on_submit_GET : ∀ f d, validate_on_submit f d req = false).
  { intros f d. unfold validate_on_submit. by rewrite Hget. }
  destruct e; unfold view_function.
  - left. destruct (index req w) as [[resp|exc] w'] eqn:E;
      by rewrite <- (index_db req w), E.
  - left. destruct (login req w) as [[resp|exc] w'] eqn:E;
      by rewrite <- (login_db req w), E.
  - by left.
  - left. destruct (_get_user w) as [p|] eqn:Hu.
    + by rewrite (register_authenticated _ _ _ Hu).
    + by rewrite (register_run _ _ Hu), validate_on_submit_GET.
  - left. destruct (profile req w) as [[resp|exc] w'] eqn:E;
      by rewrite <- (profile_db req w), E.
  - left. destruct (_get_user w) as [[uid u]|] eqn:Hu.
    + by rewrite (consultation_request_run _ _ _ _ Hu), validate_on_submit_GET.
    + unfold consultation_request. by rewrite login_required_anonymous.
  - left. destruct (consultations req w) as [[resp|exc] w'] eqn:E;
      by rewrite <- (consultations_db req w), E.
  - destruct (_get_user w) as [[uid u]|] eqn:Hu.
    + rewrite (chat_run _ _ _ _ _ Hu), Hget.
      destruct (consultation (db w) !! consultation_id) as [c|] eqn:Hc; [|by left].
      reduce.
      destruct (bool_decide (User.role u = Some "doctor")) eqn:Hrole; cbn [andb];
        [apply bool_decide_eq_true_1 in Hrole|left; by rewrite insert_id, eta_DB].
      destruct (bool_decide (Consultation.responder_id c = None)) eqn:Hopen;
        [apply bool_decide_eq_true_1 in Hopen|left; by rewrite insert_id, eta_DB].
      right. by exists consultation_id, uid, u, c.
    + left. unfold chat. by rewrite login_required_anonymous.
Qed.

(** X15.  The chat page is shown to every logged-in user: a GET to
    [/chat/<cid>] for a stored consultation renders the chat template with
    that consultation (its body, requester and response as stored),
    whether or not the user is its requester or its responder. *)
Theorem chat_is_shown_to_any_user (cid : nat) (req : Request) (w : World)
    (uid : nat) (u : User.t) (c : Consultation.t) :
  _get_user w = Some (uid, u) →
  consultation (db w) !! cid = Some c →
  method req = GET →
  ∃ c', (dispatch_request (Endpoint.chat cid) req w).1
        = render_template "chat.html" (with_consultation "Chat" (cid, c'))
        ∧ Consultation.body c' = Consultation.body c
        ∧ Consultation.user_id c' = Consultation.user_id c
        ∧ Consultation.response c' = Consultation.response c.
Proof.
  intros Hu Hc Hget. unfold dispatch_request, view_function.
  rewrite chat_methods, (chat_run _ _ _ _ _ Hu), Hc, Hget. reduce.
  eexists. split; [done|]. by destruct (bool_decide _ && bool_decide _).
Qed.

(** X16.  A logged-in user cannot log in or register again: any request
    to [/login] or [/register] from a session that is logged in, even a
    POST of a form that would validate, is answered with a redirect home
    and changes nothing (no new account, same session, nothing flashed). *)
Theorem logged_in_users_are_sent_home (e : Endpoint.t) (req : Request) (w : World)
    (cu : nat * User.t) :
  _get_user w = Some cu →
  e = Endpoint.login ∨ e = Endpoint.register →
  dispatch_request e req w = (redirect (url_for "index" []), w).
Proof.
  intros Hu [-> | ->]; unfold dispatch_request, view_function.
  - by rewrite login_methods, (login_authenticated _ _ _ Hu).
  - by rewrite register_methods, (register_authenticated _ _ _ Hu).
Qed.

(** ** Consequences over any later history *)

Lemma serve_all_keeps_users xs d : keeps_users d (serve_all d xs).
Proof.
  revert xs d. apply serve_all_preorder.
  - by intros d i u.
  - intros d1 d2 d3 H12 H23 i u Hi. by apply H23, H12.
  - apply db_step_keeps_users.
Qed.

(** X17.  A username or an e-mail, once stored, cannot be registered
    again: whatever requests were served since, a registration that
    submits the username (or the e-mail) of a stored user changes nothing
    in the database. *)
Theorem stored_names_cannot_be_registered_again (d : DB) (xs : list Exchange)
    (i : nat) (u : User.t) (s : string) (reg : Request) (w : World) :
  user d !! i = Some u →
  db w = serve_all d xs →
  (User.username u = Some s ∧ data "username" reg = Some s)
  ∨ (User.email u = Some s ∧ data "email" reg = Some s) →
  db (dispatch_request Endpoint.register reg w).2 = db w.
Proof.
  intros Hi Hdb Hsame.
  assert (user (db w) !! i = Some u) as Hi'.
  { rewrite Hdb. by apply serve_all_keeps_users. }
  assert (rejected (db w) reg) as Hrej.
  { destruct Hsame as [[Hu Hd]|[Hu Hd]].
    - left. by exists i, u, s.
    - right. left. by exists i, u, s. }
  unfold dispatch_request, view_function. rewrite register_methods.
  destruct (_get_user w) as [cu|] eqn:Hu.
  - by rewrite (register_authenticated _ _ _ Hu).
  - by rewrite (register_run _ _ Hu), (rejected_not_validated _ _ Hrej).
Qed.

(** X18.  A claimed consultation never comes back to the queue: once a
    consultation has a responder, then after any further requests the
    page a doctor gets from [/consultations] does not list it. *)
Theorem claimed_never_listed_again (d : DB) (xs : list Exchange)
    (cid r : nat) (c : Consultation.t) (listing : Request) (wd : World)
    (did : nat) (doc : User.t) :
  consultation d !! cid = Some c → Consultation.responder_id c = Some r →
  db wd = serve_all d xs →
  _get_user wd = Some (did, doc) → User.role doc = Some "doctor" →
  method listing = GET →
  ∃ l, (dispatch_request Endpoint.consultations listing wd).1
       = render_template "consultations.html" (with_consultations "Consultations" l)
       ∧ ∀ c', (cid, c') ∉ l.
Proof.
  intros Hc Hr Hdb Hdoc Hrole Hget.
  rewrite (dispatch_consultations _ _ _ _ Hdoc Hget).
  rewrite (bool_decide_eq_false_2 (User.role doc ≠ Some "doctor")) by tauto.
  eexists. split; [done|]. intros c' Hin.
  apply elem_of_filter_by_all in Hin as [Hc' Hopen].
  apply bool_decide_eq_true_1 in Hopen.
  destruct (serve_all_keeps_responders xs d cid c r Hc Hr) as (c2 & Hc2 & Hr2).
  rewrite Hdb in Hc'. congruence.
Qed.

End Properties.

(** * Worked examples

    The statements above at concrete requests, over the sample users
    (alice, a soldier; bob and carol, doctors) and the toy password
    scheme. *)

Module Examples.
Import Sample.

Lemma users_without_username name :
  filter_by_all (λ r, bool_decide (User.username r = Some name)) users = [] →
  ∀ i u, users !! i = Some u → User.username u ≠ Some name.
Proof.
  intros E i u Hu. pose proof (proj1 (filter_by_all_nil _ users) E i u Hu) as Hb.
  by apply bool_decide_eq_false_1 in Hb.
Qed.

Lemma users_without_email mail :
  filter_by_all (λ r, bool_decide (User.email r = Some mail)) users = [] →
  ∀ i u, users !! i = Some u → User.email u ≠ Some mail.
Proof.
  intros E i u Hu. pose proof (proj1 (filter_by_all_nil _ users) E i u Hu) as Hb.
  by apply bool_decide_eq_false_1 in Hb.
Qed.

Lemma dave_accepted role :
  all_space role = false → accepted db_open (post_request "/register" (dave_form role)).
Proof.
  intros Hrole. exists "dave", "d@x.com", "pw-d", role. repeat split; try done.
  - apply users_without_username. by vm_compute.
  - apply users_without_email. by vm_compute.
Qed.


Lemma register_validation_witness :
  (db (dispatch_request Endpoint.register (post_request "/register" bob_again_form)
         (world db_open anonymous)).2 = db_open)
  ∧ (∃ name mail p role,
       data "username" (post_request "/register" (dave_form "military")) = Some name
       ∧ data "email" (post_request "/register" (dave_form "military")) = Some mail
       ∧ data "password" (post_request "/register" (dave_form "military")) = Some p
       ∧ data "role" (post_request "/register" (dave_form "military")) = Some role).
Proof.
  split.
  - refine (proj1 (proj1 (register_validation (post_request "/register" bob_again_form)
                            (world db_open anonymous)) _)).
    left. exists 2, bob, "bob". repeat split; vm_compute; reflexivity.
  - destruct (proj2 (register_validation (post_request "/register" (dave_form "military"))
                       (world db_open anonymous)))
      as (name & mail & p & role & Hdata & _).
    + intros Hrej. apply (rejected_not_accepted _ _ Hrej). by apply dave_accepted.
    + vm_compute; reflexivity.
    + reflexivity.
    + reflexivity.
    + exists name, mail, p, role. exact Hdata.
Defined.

Lemma consultation_request_creates_witness :
  consultation
    (db (dispatch_request Endpoint.consultation_request
           (post_request "/consultation_request" [("body", "need help")])
           (world (mkDB users ∅) (as_user 1))).2)
  = <[1 := need_help_at 200]> ∅.
Proof.
  refine (proj1 (proj2 (proj1 (consultation_request_creates
            (post_request "/consultation_request" [("body", "need help")])
            (world (mkDB users ∅) (as_user 1)) 1 alice _) _ _ _)));
    vm_compute; reflexivity.
Defined.

Lemma consultations_lists_open_witness :
  (∃ l, dispatch_request Endpoint.consultations (get_request "/consultations")
          (world db_open (as_user 2))
        = (render_template "consultations.html" (with_consultations "Consultations" l),
           world db_open (as_user 2))
        ∧ ((1, need_help) ∈ l ↔
           consultation db_open !! 1 = Some need_help
           ∧ Consultation.responder_id need_help = None))
  ∧ dispatch_request Endpoint.consultations (get_request "/consultations")
      (world db_open (as_user 1))
    = (redirect (url_for "index" []), world db_open (as_user 1)).
Proof.
  split.
  - destruct (proj1 (consultations_lists_open (get_request "/consultations")
                       (world db_open (as_user 2)) 2 bob eq_refl eq_refl) eq_refl)
      as (l & Hout & _ & Hl & _).
    exists l. split; [exact Hout|apply Hl].
  - refine (proj2 (consultations_lists_open (get_request "/consultations")
                     (world db_open (as_user 1)) 1 alice eq_refl eq_refl) _).
    discriminate.
Defined.

Lemma chat_open_witness :
  ∃ c', consultation
          (db (dispatch_request (Endpoint.chat 1) (get_request "/chat/1")
                 (world db_open (as_user 2))).2) !! 1 = Some c'
        ∧ Consultation.responder_id c' = Some 2.
Proof.
  destruct (proj2 (proj2 (chat_open 1 (get_request "/chat/1")
                            (world db_open (as_user 2)) 2 bob eq_refl))
              need_help eq_refl)
    as (c' & Hc' & Hclaim & _).
  exists c'. split; [exact Hc'|]. apply Hclaim; reflexivity.
Defined.

Lemma chat_respond_overwrites_witness :
  ∃ c', consultation
          (db (dispatch_request (Endpoint.chat 1)
                 (post_request "/chat/1" [("response", "overwritten")])
                 (world db_claimed (as_user 1))).2) !! 1 = Some c'
        ∧ Consultation.response c' = Some "overwritten".
Proof.
  destruct (chat_respond_overwrites 1 (post_request "/chat/1" [("response", "overwritten")])
              (world db_claimed (as_user 1)) 1 alice claimed_by_bob "overwritten"
              eq_refl eq_refl eq_refl eq_refl)
    as (c' & Hc' & Hresp & _).
  exists c'. split; [exact Hc'|exact Hresp].
Defined.

Lemma chat_post_without_response_erases_witness :
  ∃ c', consultation
          (db (dispatch_request (Endpoint.chat 1) (post_request "/chat/1" [])
                 (world db_claimed (as_user 2))).2) !! 1 = Some c'
        ∧ Consultation.response c' = None.
Proof.
  destruct (chat_post_without_response_erases 1 (post_request "/chat/1" [])
              (world db_claimed (as_user 2)) 2 bob claimed_by_bob
              eq_refl eq_refl eq_refl eq_refl)
    as (c' & Hc' & Hresp & _).
  exists c'. split; [exact Hc'|exact Hresp].
Defined.

Lemma login_next_raises_NameError_witness :
  (dispatch_request Endpoint.login (login_request [("next", "/profile")])
     (world db_open anonymous)).1
  = error_response (NameError "url_parse").
Proof.
  refine (proj1 (proj2 (login_next_raises_NameError (login_request [("next", "/profile")])
                          (world db_open anonymous) 2 bob "toy$pw-b" "pw-b"
                          _ _ _ _ _ _ _ _ _) "/profile" _ _));
    try (vm_compute; reflexivity).
  discriminate.
Defined.

Lemma session_routes_without_user_witness :
  dispatch_request Endpoint.profile (get_request "/profile") (world db_open anonymous)
  = (redirect (url_for "login" [("next", "/profile")]),
     mkWorld db_open anonymous ["Please log in to access this page."]).
Proof.
  refine (proj1 (session_routes_without_user Endpoint.profile (get_request "/profile")
                   (world db_open anonymous) eq_refl _ eq_refl) _).
  - left.
  - discriminate.
Defined.

(** C9 as stated fails at [/logout]: the specification lists it as a
    session route, yet for a visitor who is not logged in it answers with a
    redirect to the home page, not to the login page. *)
Lemma logout_without_user_not_redirected_to_login :
  session_required Endpoint.logout = true
  ∧ method (get_request "/logout") ∈ methods Endpoint.logout
  ∧ _get_user (world db_open anonymous) = None
  ∧ (dispatch_request Endpoint.logout (get_request "/logout") (world db_open anonymous)).1
    = redirect (url_for "index" [])
  ∧ ¬ (∀ (e : Endpoint.t) (req : Request) (w : World),
         session_required e = true → method req ∈ methods e → _get_user w = None →
         ∃ values, (dispatch_request e req w).1 = redirect (url_for "login" values)).
Proof.
  repeat split.
  - left.
  - intros Hclaim.
    destruct (Hclaim Endpoint.logout (get_request "/logout") (world db_open anonymous)
                eq_refl ltac:(left) eq_refl) as [values Hvalues].
    discriminate Hvalues.
Qed.

(** C8 (what the code does).  A registration whose role is "admin" passes
    validation: the visitor is sent to the login page and the user table
    holds a new account whose role is neither "military" nor "doctor". *)
Theorem register_stores_any_role :
  let out := dispatch_request Endpoint.register
               (post_request "/register" (dave_form "admin")) (world db_open anonymous) in
  out.1 = redirect (url_for "login" [])
  ∧ user (db out.2) !! 4
    = Some (User.mk (Some "dave") (Some "d@x.com") (Some "toy$pw-d") (Some "admin"))
  ∧ users !! 4 = None.
Proof. by vm_compute. Qed.

End Examples.

(** * Worked examples for the further properties *)

Module Scenarios.
Import Sample.

Lemma users_are_never_changed_witness : user (serve_all db_open later) !! 2 = Some bob.
Proof. apply (users_are_never_changed db_open later 2 bob). vm_compute; reflexivity. Defined.

Lemma usernames_and_emails_stay_unique_witness : unique_users (serve_all empty_db first_day).
Proof.
  apply (usernames_and_emails_stay_unique empty_db first_day).
  intros i j u v Hi. unfold empty_db in Hi. cbn [user] in Hi. by rewrite lookup_empty in Hi.
Defined.

Lemma consultations_keep_their_request_witness :
  ∃ c', consultation (serve_all db_open later) !! 1 = Some c'
    ∧ Consultation.body c' = Some "need help"
    ∧ Consultation.timestamp c' = Some 100
    ∧ Consultation.user_id c' = Some 1.
Proof.
  apply (consultations_keep_their_request db_open later 1 need_help). vm_compute; reflexivity.
Defined.

Lemma responders_stay_doctors_witness : responders_are_doctors (serve_all empty_db first_day).
Proof.
  apply (responders_stay_doctors empty_db first_day).
  intros cid c r Hc. unfold empty_db in Hc. cbn [consultation] in Hc.
  by rewrite lookup_empty in Hc.
Defined.

Lemma requesters_stay_stored_witness : requesters_exist (serve_all empty_db first_day).
Proof.
  apply (requesters_stay_stored empty_db first_day).
  intros cid c Hc. unfold empty_db in Hc. cbn [consultation] in Hc.
  by rewrite lookup_empty in Hc.
Defined.

Lemma login_failures_look_alike_witness :
  dispatch_request Endpoint.login mallory_login (world db_open anonymous)
  = (redirect (url_for "login" []),
     mkWorld db_open anonymous ["Invalid username or password"]).
Proof.
  refine (proj1 (login_failures_look_alike mallory_login (world db_open anonymous) _ _) _).
  - vm_compute; reflexivity.
  - vm_compute; reflexivity.
  - apply Examples.users_without_username. vm_compute; reflexivity.
Defined.

Lemma login_needs_matching_password_witness :
  ∃ uid u h p,
    users !! uid = Some u
    ∧ User.username u = Some "bob"
    ∧ User.password_hash u = Some h
    ∧ Some "pw-b" = Some p
    ∧ check_password_hash h p = true
    ∧ session (dispatch_request Endpoint.login (login_request []) (world db_open anonymous)).2
      = mkSession (Some uid) false.
Proof.
  apply (login_needs_matching_password (login_request []) (world db_open anonymous)).
  vm_compute. discriminate.
Defined.

Lemma login_then_profile_witness :
  (dispatch_request Endpoint.profile (get_request "/profile")
     (dispatch_request Endpoint.login (login_request []) (world db_open anonymous)).2).1
  = render_template "profile.html" (with_user "Profile" (Some (2, bob))).
Proof.
  refine (proj2 (proj2 (login_then_profile (login_request []) (get_request "/profile")
                          (world db_open anonymous) 2 bob "toy$pw-b" "pw-b"
                          _ _ _ _ _ _ _ _)));
    vm_compute; reflexivity.
Defined.


Lemma logout_ends_the_session_witness :
  (dispatch_request Endpoint.profile (get_request "/profile")
     (dispatch_request Endpoint.logout (get_request "/logout")
        (world db_open (as_user 2))).2).1
  = redirect (url_for "login" [("next", "/profile")]).
Proof.
  refine (proj2 (proj2 (proj2 (logout_ends_the_session Endpoint.profile
            (get_request "/logout") (get_request "/profile") (world db_open (as_user 2))
            eq_refl eq_refl _ _)))).
  - discriminate.
  - left.
Defined.

Lemma only_login_and_logout_touch_the_session_witness :
  session (dispatch_request Endpoint.register
             (post_request "/register" (dave_form "military"))
             (world db_open anonymous)).2
  = anonymous.
Proof.
  apply (only_login_and_logout_touch_the_session Endpoint.register
           (post_request "/register" (dave_form "military")) (world db_open anonymous));
    discriminate.
Defined.

Lemma submit_claim_respond_witness :
  consultation
    (serve_all (mkDB users ∅)
       [mkExchange (as_user 1) Endpoint.consultation_request
          (post_request "/consultation_request" [("body", "need help")]);
        mkExchange (as_user 2) (Endpoint.chat 1) (get_request "/chat/1");
        mkExchange (as_user 2) (Endpoint.chat 1)
          (post_request "/chat/1" [("response", "see a specialist")])]) !! 1
  = Some (Consultation.mk (Some "need help") (Some 200) (Some 1) (Some 2)
            (Some "see a specialist")).
Proof.
  refine (submit_claim_respond (mkDB users ∅) (as_user 1) (as_user 2) 1 2 alice bob
            (post_request "/consultation_request" [("body", "need help")])
            (get_request "/chat/1")
            (post_request "/chat/1" [("response", "see a specialist")])
            "see a specialist" _ _ _ _ _ _ _ _ _);
    vm_compute; reflexivity.
Defined.

Lemma reply_without_claim_stays_in_queue_witness :
  ∃ l, (dispatch_request Endpoint.consultations (get_request "/consultations")
          (world
             (db (dispatch_request (Endpoint.chat 1)
                    (post_request "/chat/1" [("response", "any news?")])
                    (world db_open (as_user 1))).2)
             (as_user 2))).1
       = render_template "consultations.html" (with_consultations "Consultations" l)
       ∧ (1, Consultation.set_response (Some "any news?") need_help) ∈ l.
Proof.
  refine (proj2 (reply_without_claim_stays_in_queue 1
            (post_request "/chat/1" [("response", "any news?")])
            (get_request "/consultations")
            (world db_open (as_user 1)) _ 1 2 alice bob need_help "any news?"
            _ _ _ _ _ _ _ _ _ _));
    try (vm_compute; reflexivity).
  discriminate.
Defined.

Lemma get_writes_only_the_claim_witness :
  db (dispatch_request (Endpoint.chat 1) (get_request "/chat/1")
        (world db_open (as_user 2))).2 = db_open
  ∨ ∃ cid uid u c,
      Endpoint.chat 1 = Endpoint.chat cid
      ∧ _get_user (world db_open (as_user 2)) = Some (uid, u)
      ∧ User.role u = Some "doctor"
      ∧ consultation db_open !! cid = Some c ∧ Consultation.responder_id c = None
      ∧ db (dispatch_request (Endpoint.chat 1) (get_request "/chat/1")
              (world db_open (as_user 2))).2
        = mkDB users (<[cid := Consultation.set_responder_id (Some uid) c]> (consultation db_open)).
Proof.
  apply (get_writes_only_the_claim (Endpoint.chat 1) (get_request "/chat/1")
           (world db_open (as_user 2))).
  reflexivity.
Defined.

Lemma chat_is_shown_to_any_user_witness :
  ∃ c', (dispatch_request (Endpoint.chat 1) (get_request "/chat/1")
           (world db_claimed (as_user 3))).1
        = render_template "chat.html" (with_consultation "Chat" (1, c'))
        ∧ Consultation.body c' = Some "need help"
        ∧ Consultation.user_id c' = Some 1
        ∧ Consultation.response c' = Some "see a specialist".
Proof.
  apply (chat_is_shown_to_any_user 1 (get_request "/chat/1") (world db_claimed (as_user 3))
           3 carol claimed_by_bob); vm_compute; reflexivity.
Defined.

Lemma logged_in_users_are_sent_home_witness :
  dispatch_request Endpoint.register (post_request "/register" (dave_form "military"))
    (world db_open (as_user 1))
  = (redirect (url_for "index" []), world db_open (as_user 1)).
Proof.
  refine (logged_in_users_are_sent_home Endpoint.register
            (post_request "/register" (dave_form "military"))
            (world db_open (as_user 1)) (1, alice) _ _).
  - vm_compute; reflexivity.
  - by right.
Defined.

Lemma stored_names_cannot_be_registered_again_witness :
  db (dispatch_request Endpoint.register (post_request "/register" bob_again_form)
        (world (serve_all db_open later) anonymous)).2
  = serve_all db_open later.
Proof.
  refine (stored_names_cannot_be_registered_again db_open later 2 bob "bob"
            (post_request "/register" bob_again_form)
            (world (serve_all db_open later) anonymous) _ _ _).
  - vm_compute; reflexivity.
  - reflexivity.
  - left. split; reflexivity.
Defined.

Lemma claimed_never_listed_again_witness :
  ∃ l, (dispatch_request Endpoint.consultations (get_request "/consultations")
          (world (serve_all db_claimed later) (as_user 3))).1
       = render_template "consultations.html" (with_consultations "Consultations" l)
       ∧ ∀ c', (1, c') ∉ l.
Proof.
  refine (claimed_never_listed_again db_claimed later 1 2 claimed_by_bob
            (get_request "/consultations")
            (world (serve_all db_claimed later) (as_user 3)) 3 carol _ _ _ _ _ _);
    vm_compute; reflexivity.
Defined.

End Scenarios.
